(** * py-jsonapi: the dispatch core ([jsonapi.api], [jsonapi.includer],
    [jsonapi.response]) as a shallow embedding, and the properties of its
    routing, registry, identifier normalisation and include-path engine.

    Python objects are modelled by the values the code distinguishes between;
    a call either returns a value or raises ([result]); dictionaries are
    [gmap]s, except the route table whose iteration order matters. *)

From Stdlib Require Import ZArith Ascii String List.
From stdpp Require Import base decidable countable option list gmap strings pretty.

#[local] Set Warnings "-clear-no-such-hyp".

Open Scope string_scope.
Open Scope Z_scope.

(** ** Calls: results and exceptions *)

Module Py.

(** The exception classes the modelled code can raise.  [DomainError] wraps an
    instance of [jsonapi.errors.Error], whose type is a parameter [E]. *)
Inductive exn (E : Type) : Type :=
| KeyError
| AttributeError
| AssertionError
| TypeError
| ValueError
| IndexError
| DomainError (err : E)
| OtherException (tag : nat).

Arguments KeyError {E}.
Arguments AttributeError {E}.
Arguments AssertionError {E}.
Arguments TypeError {E}.
Arguments ValueError {E}.
Arguments IndexError {E}.
Arguments DomainError {E} err.
Arguments OtherException {E} tag.

(** The outcome of a call. *)
Inductive result (E A : Type) : Type :=
| Return (a : A)
| Raise (e : exn E).

Arguments Return {E A} a.
Arguments Raise {E A} e.

Definition bind {E A B} (m : result E A) (f : A → result E B) : result E B :=
  match m with
  | Return a => f a
  | Raise e => Raise e
  end.

#[global] Instance result_bind {E} : MBind (result E) := λ A B f m, bind m f.
#[global] Instance result_ret {E} : MRet (result E) := λ A a, Return a.

Definition returns {E A} (m : result E A) : bool :=
  match m with Return _ => true | Raise _ => false end.

(** Records written to the module logger [LOG]. *)
Inductive LogRecord : Type :=
| WarnNoResourceClass (who : string)
| WarnNoTypename (who : string)
| WarnRemoteTypesUnknown (rest : list string) (name : string)
| DebugNoRoute.

(** A call that also writes to [LOG]: its outcome and the records emitted, in
    order. *)
Definition logged (E A : Type) : Type := (result E A * list LogRecord)%type.

Definition outcome {E A} (m : logged E A) : result E A := m.1.
Definition records {E A} (m : logged E A) : list LogRecord := m.2.

(** *** Python values *)

(** Classes: the built-in ones [type(o)] can yield here, and user classes
    (resource classes), told apart by a number. *)
Inductive cls : Type :=
| NoneType
| StrT
| IntT
| TypeT
| UserClass (n : nat).

(** [None], strings and integers. *)
Inductive scalar : Type :=
| SNone
| SStr (s : string)
| SInt (z : Z).

(** The hashable objects that are used as registry keys, collected into sets,
    or handed to the registry: scalars, classes, and instances of user classes
    (an instance is its class and its identity). *)
Inductive pyobj : Type :=
| Scalar (v : scalar)
| Class (c : cls)
| Instance (c : nat) (oid : nat).

Definition PyNone : pyobj := Scalar SNone.
Definition PyStr (s : string) : pyobj := Scalar (SStr s).

#[global] Instance cls_eq_dec : EqDecision cls.
Proof. solve_decision. Defined.
#[global] Instance scalar_eq_dec : EqDecision scalar.
Proof. solve_decision. Defined.
#[global] Instance pyobj_eq_dec : EqDecision pyobj.
Proof. solve_decision. Defined.

Definition cls_to_nat (c : cls) : nat :=
  match c with
  | NoneType => 0 | StrT => 1 | IntT => 2 | TypeT => 3
  | UserClass n => 4 + n
  end%nat.

Definition cls_of_nat (n : nat) : cls :=
  match n with
  | 0 => NoneType | 1 => StrT | 2 => IntT | 3 => TypeT
  | S (S (S (S n))) => UserClass n
  end%nat.

#[global] Instance cls_countable : Countable cls.
Proof. by apply (inj_countable' cls_to_nat cls_of_nat); intros []. Defined.

Definition scalar_to_sum (v : scalar) : unit + string + Z :=
  match v with
  | SNone => inl (inl ())
  | SStr s => inl (inr s)
  | SInt z => inr z
  end.

Definition scalar_of_sum (x : unit + string + Z) : scalar :=
  match x with
  | inl (inl _) => SNone
  | inl (inr s) => SStr s
  | inr z => SInt z
  end.

#[global] Instance scalar_countable : Countable scalar.
Proof. by apply (inj_countable' scalar_to_sum scalar_of_sum); intros []. Defined.

Definition pyobj_to_sum (o : pyobj) : scalar + cls + nat * nat :=
  match o with
  | Scalar v => inl (inl v)
  | Class c => inl (inr c)
  | Instance c i => inr (c, i)
  end.

Definition pyobj_of_sum (x : scalar + cls + nat * nat) : pyobj :=
  match x with
  | inl (inl v) => Scalar v
  | inl (inr c) => Class c
  | inr (c, i) => Instance c i
  end.

#[global] Instance pyobj_countable : Countable pyobj.
Proof. by apply (inj_countable' pyobj_to_sum pyobj_of_sum); intros []. Defined.

(** [type(o)]. *)
Definition type_of (o : pyobj) : cls :=
  match o with
  | Scalar SNone => NoneType
  | Scalar (SStr _) => StrT
  | Scalar (SInt _) => IntT
  | Class _ => TypeT
  | Instance c _ => UserClass c
  end.

(** [str(v)] on a scalar. *)
Definition str (v : scalar) : string :=
  match v with
  | SNone => "None"
  | SStr s => s
  | SInt z => pretty z
  end.

End Py.

(** ** Regular expressions ([re]) *)

Module Re.
Import Py.

(** The fragment of Python's pattern syntax the routing code writes:
    literal characters (also what [re.escape] produces), [[^c]], sequencing,
    named groups [(?P<name>r)], the lazy [r+?], the greedy [r?] and [$]. *)
Inductive regex : Type :=
| Empty
| Char (c : ascii)
| NotChar (c : ascii)
| Cat (r1 r2 : regex)
| Group (name : string) (r : regex)
| LazyPlus (r : regex)
| Opt (r : regex)
| EndOfString.

Abbreviation captures := (gmap string string).

(** The text a sub-pattern consumed when it was entered at [s] and left at
    the suffix [s'] of [s]. *)
Definition consumed (s s' : string) : string :=
  substring 0 (String.length s - String.length s') s.

(** Backtracking matcher in continuation-passing style: [run r s caps k]
    matches [r] at the front of [s] and hands the rest to [k]; alternatives
    are tried in the engine's order (lazy: continue first; greedy: consume
    first).  [$] holds at the end of the string and just before a final
    newline.  A [+?] loop runs at most once per remaining character, plus
    one. *)
Fixpoint run (r : regex) (s : string) (caps : captures)
    (k : string → captures → option captures) : option captures :=
  match r with
  | Empty => k s caps
  | Char c =>
      match s with
      | String c' s' => if Ascii.eqb c c' then k s' caps else None
      | EmptyString => None
      end
  | NotChar c =>
      match s with
      | String c' s' => if Ascii.eqb c c' then None else k s' caps
      | EmptyString => None
      end
  | Cat r1 r2 => run r1 s caps (λ s' caps', run r2 s' caps' k)
  | Group name r' =>
      run r' s caps (λ s' caps', k s' (<[name := consumed s s']> caps'))
  | LazyPlus r' =>
      (fix iter (fuel : nat) (s : string) (caps : captures) : option captures :=
         match fuel with
         | O => None
         | S fuel' =>
             run r' s caps (λ s' caps',
               match k s' caps' with
               | Some m => Some m
               | None => iter fuel' s' caps'
               end)
         end) (S (String.length s)) s caps
  | Opt r' =>
      match run r' s caps k with
      | Some m => Some m
      | None => k s caps
      end
  | EndOfString =>
      match s with
      | EmptyString => k s caps
      | String "010"%char EmptyString => k s caps
      | _ => None
      end
  end.

(** The names of the groups of a pattern. *)
Fixpoint group_names (r : regex) : list string :=
  match r with
  | Empty | Char _ | NotChar _ | EndOfString => []
  | Cat r1 r2 => group_names r1 ++ group_names r2
  | Group name r' => name :: group_names r'
  | LazyPlus r' | Opt r' => group_names r'
  end.

(** A match object, as far as the code looks at it: [match.groupdict()],
    every named group of the pattern with the text it matched, or [None] when
    it took no part in the match. *)
Abbreviation match_object := (gmap string scalar).

Definition groupdict (r : regex) (caps : captures) : match_object :=
  foldr (λ name d, <[name := from_option SStr SNone (caps !! name)]> d)
        ∅ (group_names r).

(** [re.fullmatch(r, s)]. *)
Definition fullmatch (r : regex) (s : string) : option match_object :=
  groupdict r <$>
    run r s ∅ (λ s' caps, match s' with EmptyString => Some caps | _ => None end).

(** [match.group(name)] for a group of the pattern. *)
Definition group (m : match_object) (name : string) : scalar :=
  default SNone (m !! name).

(** [re.escape(s)], as a pattern: the characters of [s], each taken
    literally. *)
Fixpoint escape (s : string) : regex :=
  match s with
  | EmptyString => Empty
  | String c s' => Cat (Char c) (escape s')
  end.

(** Concatenation of pattern strings: the patterns one after the other. *)
Definition seq (rs : list regex) : regex := foldr Cat Empty rs.

End Re.


(** ** The package *)

Module Jsonapi.
Import Py.

(** *** [jsonapi.response] *)

Record Response : Type := {
  status : Z;
  headers : gmap string string;
  body : option string
}.

(** [Response(status=200, headers=None, body=None)]. *)
Definition Response_init (status : option Z)
    (headers : option (gmap string string)) (body : option string) : Response :=
  {| status := default 200 status;
     headers := default ∅ headers;
     body := body |}.

(** *** The request context

    The attributes of a [jsonapi.request.Request] the core reads or writes:
    [request.api] (the address of the API it is bound to),
    [request.parsed_uri.path] and [request.japi_uri_arguments]. *)
Record Request : Type := {
  api : option nat;
  path : string;
  japi_uri_arguments : gmap string scalar
}.

Definition set_api (request : Request) (a : nat) : Request :=
  {| api := Some a;
     path := path request;
     japi_uri_arguments := japi_uri_arguments request |}.

(** The same request context for another path. *)
Definition set_path (request : Request) (p : string) : Request :=
  {| api := api request;
     path := p;
     japi_uri_arguments := japi_uri_arguments request |}.

(** [request.japi_uri_arguments.update(d)]. *)
Definition update_uri_arguments (request : Request) (d : gmap string scalar)
    : Request :=
  {| api := api request;
     path := path request;
     japi_uri_arguments := d ∪ japi_uri_arguments request |}.

(** *** Collaborators

    The modules of the package the core calls into and whose code is not part
    of it: [jsonapi.errors] (the class [Error], its subclass [NotFound],
    [error_to_response]), [json.dumps], and [jsonapi.response_builder] (the
    class [ResponseBuilder], whether an instance is an [IncludeMixin], its
    methods [fetch_include], which updates the builder, and [to_response]). *)
Class Collaborators : Type := {
  Error : Type;
  NotFound : Error;
  JSON : Type;
  json_dumps : JSON → option Z → bool → string;
  error_to_response : Error → (JSON → string) → Response;
  ResponseBuilder : Type;
  is_IncludeMixin : ResponseBuilder → bool;
  fetch_include : ResponseBuilder → result Error ResponseBuilder;
  to_response : ResponseBuilder → result Error Response
}.

Section Definitions.
Context `{Collaborators}.

#[local] Abbreviation result := (Py.result Error).
#[local] Abbreviation logged := (Py.logged Error).

(** What [Handler.handle] returns: a response or a response builder. *)
Inductive HandlerReturn : Type :=
| Finished (resp : Response)
| Deferred (builder : ResponseBuilder).

Record Handler : Type := {
  handle : Request → result HandlerReturn
}.

(** What the core uses of a [jsonapi.encoder.Encoder]: its [typename] and
    [resource_class] (either may be [None]), [encoder.id(resource)] and the
    outcome of [encoder.init_api(api)]. *)
Record Encoder : Type := {
  typename : option string;
  resource_class : option cls;
  encoder_id : pyobj → result scalar;
  encoder_init_api : nat → result ()
}.

(** *** [jsonapi.includer] *)

(** What an accessor hands back: one object ([None] included), or a
    collection of objects. *)
Inductive relatives : Type :=
| Single (o : pyobj)
| Collection (items : list pyobj).

(** A [ToOneRelationship] ([to_one = True]) or [ToManyRelationship]
    ([to_one = False]) descriptor; [get] is [relationship.get(includer,
    resource, request)]. *)
Record Relationship : Type := {
  name : option string;
  to_one : bool;
  remote_types : option (list string);
  get : pyobj → Request → result relatives
}.

Definition to_many (relationship : Relationship) : bool :=
  negb (to_one relationship).

(** An [Includer]: the address [__api] holds, and [_relationships]. *)
Record Includer : Type := {
  includer_api : option nat;
  _relationships : gmap string Relationship
}.

(** [Includer.get_descriptor]. *)
Definition get_descriptor (self : Includer) (relname : string)
    : option Relationship :=
  _relationships self !! relname.

(** [Includer.init_api]. *)
Definition Includer_init_api (self : Includer) (a : nat) : result Includer :=
  if bool_decide (includer_api self = None ∨ includer_api self = Some a)
  then Return {| includer_api := Some a;
                 _relationships := _relationships self |}
  else Raise AssertionError.

(** Iterating over an object: a string yields its characters, the other
    objects of the model are not iterable. *)
Definition iterate (o : pyobj) : option (list pyobj) :=
  match o with
  | Scalar (SStr s) =>
      Some ((λ c, PyStr (String c EmptyString)) <$> list_ascii_of_string s)
  | _ => None
  end.

(** The loop [for resource in resources: related.add(relationship.get(self,
    resource, request))]; a collection is not hashable. *)
Fixpoint add_each (relationship : Relationship) (request : Request)
    (resources : list pyobj) (related : gset pyobj) : result (gset pyobj) :=
  match resources with
  | [] => Return related
  | resource :: resources' =>
      match get relationship resource request with
      | Return (Single o) =>
          add_each relationship request resources' ({[o]} ∪ related)
      | Return (Collection _) => Raise TypeError
      | Raise e => Raise e
      end
  end.

(** The loop [for resource in resources:
    related.update(relationship.get(self, resource, request))]. *)
Fixpoint update_each (relationship : Relationship) (request : Request)
    (resources : list pyobj) (related : gset pyobj) : result (gset pyobj) :=
  match resources with
  | [] => Return related
  | resource :: resources' =>
      match get relationship resource request with
      | Return (Collection items) =>
          update_each relationship request resources'
            (list_to_set items ∪ related)
      | Return (Single o) =>
          match iterate o with
          | Some items =>
              update_each relationship request resources'
                (list_to_set items ∪ related)
          | None => Raise TypeError
          end
      | Raise e => Raise e
      end
  end.

(** [Includer.fetch_path].  [name, *path = path] raises [ValueError] on an
    empty path; [self._relationships[name]] raises [KeyError] on a name that
    is not a key. *)
Definition fetch_path (self : Includer) (resources : list pyobj)
    (path : list string) (request : Request) : result (gset pyobj) :=
  match path with
  | [] => Raise ValueError
  | name :: path =>
      match _relationships self !! name with
      | None => Raise KeyError
      | Some relationship =>
          if to_one relationship then
            related ← add_each relationship request resources ∅;
            Return (related ∖ {[PyNone]})
          else
            update_each relationship request resources ∅
      end
  end.

(** [Includer.fetch_paths]. *)
Fixpoint fetch_paths_from (self : Includer) (resources : list pyobj)
    (paths : list (list string)) (request : Request) (related : gset pyobj)
    : result (gset pyobj) :=
  match paths with
  | [] => Return related
  | path :: paths' =>
      fetched ← fetch_path self resources path request;
      fetch_paths_from self resources paths' request (fetched ∪ related)
  end.

Definition fetch_paths (self : Includer) (resources : list pyobj)
    (paths : list (list string)) (request : Request) : result (gset pyobj) :=
  fetch_paths_from self resources paths request ∅.

(** *** [jsonapi.api] *)

(** The state of an [API] object: its address, [_debug], [_uri], the four
    registry dictionaries, [_handler] (keyed by the tuples [(typename,
    endpoint_type)] and [(typename, endpoint_type, relname)]), [_routes] in
    insertion order with each url rule compiled, and the method
    [prepare_request], which a subclass may override. *)
Record API : Type := {
  api_id : nat;
  _debug : bool;
  _uri : string;
  _encoder : gmap pyobj Encoder;
  _resource_class_to_encoder : gmap pyobj Encoder;
  _includer : gmap pyobj Includer;
  _resource_class_to_includer : gmap pyobj Includer;
  _handler : gmap (list scalar) Handler;
  _routes : list (Re.regex * Handler);
  prepare_request : Request → result Request
}.

(** [s.rstrip("/")]. *)
Fixpoint rstrip_slash (s : string) : string :=
  match s with
  | EmptyString => EmptyString
  | String c s' =>
      match rstrip_slash s' with
      | EmptyString => if Ascii.eqb c "/" then EmptyString else String c EmptyString
      | t => String c t
      end
  end.

(** [API.prepare_request] as the class defines it: nothing happens. *)
Definition default_prepare_request (request : Request) : result Request :=
  Return request.

(** [API.__init__(uri, debug)], for the object at address [addr]. *)
Definition API_init (addr : nat) (uri : string) (debug : bool) : API :=
  {| api_id := addr;
     _debug := debug;
     _uri := rstrip_slash uri;
     _encoder := ∅;
     _resource_class_to_encoder := ∅;
     _includer := ∅;
     _resource_class_to_includer := ∅;
     _handler := ∅;
     _routes := [];
     prepare_request := default_prepare_request |}.

(** The property [API.debug]. *)
Definition debug (self : API) : bool := _debug self.

(** [API.dump_json]. *)
Definition dump_json (self : API) (obj : JSON) : string :=
  json_dumps obj (if debug self then Some 4 else None) (debug self).

(** [a or b] where [a] and [b] come from [dict.get] on a dictionary of
    encoders or includers: such an object is true, [None] is false. *)
Definition or_else {A} (a b : option A) : option A :=
  match a with
  | Some x => Some x
  | None => b
  end.

(** The body shared by [get_encoder] and [get_includer]: three lookups, then
    the default.  [default = None] is the marker [ARG_DEFAULT]. *)
Definition registry_get {A D} (by_typename by_class : gmap pyobj A)
    (o : pyobj) (default : option D) : result (A + D) :=
  match or_else (by_typename !! o)
          (or_else (by_class !! o) (by_class !! Class (type_of o))) with
  | Some found => Return (inl found)
  | None =>
      match default with
      | Some d => Return (inr d)
      | None => Raise KeyError
      end
  end.

(** [API.get_encoder]. *)
Definition get_encoder {D} (self : API) (o : pyobj) (default : option D)
    : result (Encoder + D) :=
  registry_get (_encoder self) (_resource_class_to_encoder self) o default.

(** [API.get_includer]. *)
Definition get_includer {D} (self : API) (o : pyobj) (default : option D)
    : result (Includer + D) :=
  registry_get (_includer self) (_resource_class_to_includer self) o default.

(** A lookup with no default: what comes back is a registered object. *)
Definition found {A} (r : result (A + Empty_set)) : result A :=
  match r with
  | Return (inl a) => Return a
  | Return (inr d) => match d : Empty_set with end
  | Raise e => Raise e
  end.

(** No lookup of [registry_get] finds anything for [o]. *)
Definition unmatched {A} (by_typename by_class : gmap pyobj A) (o : pyobj)
    : Prop :=
  by_typename !! o = None ∧ by_class !! o = None
  ∧ by_class !! Class (type_of o) = None.


(** The key under which a typename is stored. *)
Definition typename_key (typename : option string) : pyobj :=
  Scalar (from_option SStr SNone typename).

(** Reading the attribute [typename] of the API object: class [API] defines
    none, the lookup raises [AttributeError]. *)
Definition API_typename (self : API) : result scalar := Raise AttributeError.

(** [type(self).__name__]. *)
Definition API_class_name : string := "API".

(** The argument of the two warnings of [add_type]:
    [self.typename or type(self).__name__]. *)
Definition warning_subject (self : API) : result string :=
  t ← API_typename self;
  match t with
  | SStr (String c s) => Return (String c s)
  | _ => Return API_class_name
  end.

(** [API.add_type(encoder, includer)]: the API afterwards, what the call
    wrote to the log, and its outcome.  An exception leaves the API as it was
    when it was raised. *)
Definition add_type (self : API) (encoder : Encoder) (includer : option Includer)
    : API * logged () :=
  let resource_class := resource_class encoder in
  let typename := typename encoder in
  let warn1 : logged () :=
    match resource_class with
    | None =>
        match warning_subject self with
        | Return who => (Return (), [WarnNoResourceClass who])
        | Raise e => (Raise e, [])
        end
    | Some _ => (Return (), [])
    end in
  match warn1 with
  | (Raise e, log1) => (self, (Raise e, log1))
  | (Return _, log1) =>
  let warn2 : logged () :=
    match typename with
    | None =>
        match warning_subject self with
        | Return who => (Return (), [WarnNoTypename who])
        | Raise e => (Raise e, [])
        end
    | Some _ => (Return (), [])
    end in
  match warn2 with
  | (Raise e, log2) => (self, (Raise e, (log1 ++ log2)%list))
  | (Return _, log2) =>
  let log := (log1 ++ log2)%list in
  match encoder_init_api encoder (api_id self) with
  | Raise e => (self, (Raise e, log))
  | Return _ =>
  let self1 :=
    {| api_id := api_id self; _debug := _debug self; _uri := _uri self;
       _encoder := <[typename_key typename := encoder]> (_encoder self);
       _resource_class_to_encoder :=
         match resource_class with
         | Some c => <[Class c := encoder]> (_resource_class_to_encoder self)
         | None => _resource_class_to_encoder self
         end;
       _includer := _includer self;
       _resource_class_to_includer := _resource_class_to_includer self;
       _handler := _handler self; _routes := _routes self;
       prepare_request := prepare_request self |} in
  match includer with
  | None => (self1, (Return (), log))
  | Some includer =>
      match Includer_init_api includer (api_id self) with
      | Raise e => (self1, (Raise e, log))
      | Return includer =>
          ({| api_id := api_id self1; _debug := _debug self1; _uri := _uri self1;
              _encoder := _encoder self1;
              _resource_class_to_encoder := _resource_class_to_encoder self1;
              _includer := <[typename_key typename := includer]> (_includer self1);
              _resource_class_to_includer :=
                match resource_class with
                | Some c =>
                    <[Class c := includer]> (_resource_class_to_includer self1)
                | None => _resource_class_to_includer self1
                end;
              _handler := _handler self1; _routes := _routes self1;
              prepare_request := prepare_request self1 |},
           (Return (), log))
      end
  end
  end
  end
  end.

(** Replacing the handler table. *)
Definition set_handler (self : API) (table : gmap (list scalar) Handler) : API :=
  {| api_id := api_id self; _debug := _debug self; _uri := _uri self;
     _encoder := _encoder self;
     _resource_class_to_encoder := _resource_class_to_encoder self;
     _includer := _includer self;
     _resource_class_to_includer := _resource_class_to_includer self;
     _handler := table; _routes := _routes self;
     prepare_request := prepare_request self |}.

(** [API.add_handler(handler, typename, endpoint_type, relname)];
    [assert relname] fails on [None] and on the empty string. *)
Definition add_handler (self : API) (handler : Handler) (typename : string)
    (endpoint_type : string) (relname : option string) : result API :=
  if bool_decide (endpoint_type = "collection" ∨ endpoint_type = "resource") then
    Return (set_handler self
      (<[ [SStr typename; SStr endpoint_type] := handler ]> (_handler self)))
  else if bool_decide (endpoint_type = "relationship" ∨ endpoint_type = "related") then
    match relname with
    | Some (String c r) =>
        Return (set_handler self
          (<[ [SStr typename; SStr endpoint_type; SStr (String c r)] := handler ]>
             (_handler self)))
    | _ => Raise AssertionError
    end
  else Return self.

(** What [ensure_identifier_object] and [ensure_identifier] are given: a
    tuple, a dictionary (an identifier or resource document), or any other
    object, [None] among them. *)
Inductive reference : Type :=
| RefTuple (items : list scalar)
| RefDict (document : gmap string scalar)
| RefObject (o : pyobj).

(** [API.ensure_identifier_object]; the identifier document is a dictionary,
    the result [None] is [None]. *)
Definition ensure_identifier_object (self : API) (obj : reference)
    : result (option (gmap string scalar)) :=
  match obj with
  | RefObject (Scalar SNone) => Return None
  | RefTuple items =>
      match items !! 0%nat, items !! 1%nat with
      | Some t, Some i =>
          Return (Some {[ "type" := SStr (str t); "id" := SStr (str i) ]})
      | _, _ => Raise IndexError
      end
  | RefDict document =>
      match document !! "type", document !! "id" with
      | Some t, Some i =>
          Return (Some {[ "type" := SStr (str t); "id" := SStr (str i) ]})
      | _, _ => Raise KeyError
      end
  | RefObject o =>
      encoder ← found (get_encoder self o None);
      i ← encoder_id encoder o;
      Return (Some {[ "type" := from_option SStr SNone (typename encoder);
                      "id" := i ]})
  end.

(** [jsonapi.utilities.jsonapi_id_tuple], the named tuple [(type, id)]. *)
Record jsonapi_id_tuple : Type := {
  tuple_type : scalar;
  tuple_id : scalar
}.

(** [API.ensure_identifier]. *)
Definition ensure_identifier (self : API) (obj : reference)
    : result jsonapi_id_tuple :=
  match obj with
  | RefTuple items =>
      match items with
      | [t; i] =>
          Return {| tuple_type := SStr (str t); tuple_id := SStr (str i) |}
      | _ => Raise AssertionError
      end
  | RefDict document =>
      match document !! "type", document !! "id" with
      | Some t, Some i =>
          Return {| tuple_type := SStr (str t); tuple_id := SStr (str i) |}
      | _, _ => Raise KeyError
      end
  | RefObject o =>
      encoder ← found (get_encoder self o None);
      i ← encoder_id encoder o;
      Return {| tuple_type := from_option SStr SNone (typename encoder);
                tuple_id := i |}
  end.

(** The patterns of [_get_handler].  [segment name] is [(?P<name>[^/]+?)],
    [literal s] the text [s], [slash_end] is [/?$]. *)
Definition segment (name : string) : Re.regex :=
  Re.Group name (Re.LazyPlus (Re.NotChar "/")).

Definition literal (s : string) : Re.regex := Re.escape s.

Definition slash_end : Re.regex := Re.Cat (Re.Opt (Re.Char "/")) Re.EndOfString.

Definition collection_re (escaped_uri : Re.regex) : Re.regex :=
  Re.seq [escaped_uri; literal "/"; segment "type"; slash_end].

Definition resource_re (escaped_uri : Re.regex) : Re.regex :=
  Re.seq [escaped_uri; literal "/"; segment "type"; literal "/"; segment "id";
          slash_end].

Definition relationship_re (escaped_uri : Re.regex) : Re.regex :=
  Re.seq [escaped_uri; literal "/"; segment "type"; literal "/"; segment "id";
          literal "/relationships/"; segment "relname"; slash_end].

Definition related_re (escaped_uri : Re.regex) : Re.regex :=
  Re.seq [escaped_uri; literal "/"; segment "type"; literal "/"; segment "id";
          literal "/"; segment "relname"; slash_end].

(** The loop over the custom routes: the first rule that matches the whole
    path wins. *)
Fixpoint custom_route (routes : list (Re.regex * Handler)) (request : Request)
    : option (Handler * Request) :=
  match routes with
  | [] => None
  | (url_rule, handler) :: routes' =>
      match Re.fullmatch url_rule (path request) with
      | Some m => Some (handler, update_uri_arguments request m)
      | None => custom_route routes' request
      end
  end.

(** [API._get_handler]: the handler, [None] when there is none, and the
    request with the path parameters of the match merged in. *)
Definition _get_handler (self : API) (request : Request)
    : option Handler * Request :=
  match custom_route (_routes self) request with
  | Some (handler, request') => (Some handler, request')
  | None =>
  let escaped_uri := Re.escape (_uri self) in
  match Re.fullmatch (collection_re escaped_uri) (path request) with
  | Some m =>
      (_handler self !! [Re.group m "type"; SStr "collection"],
       update_uri_arguments request m)
  | None =>
  match Re.fullmatch (resource_re escaped_uri) (path request) with
  | Some m =>
      (_handler self !! [Re.group m "type"; SStr "resource"],
       update_uri_arguments request m)
  | None =>
  match Re.fullmatch (relationship_re escaped_uri) (path request) with
  | Some m =>
      (_handler self !!
         [Re.group m "type"; SStr "relationship"; Re.group m "relname"],
       update_uri_arguments request m)
  | None =>
  match Re.fullmatch (related_re escaped_uri) (path request) with
  | Some m =>
      (_handler self !!
         [Re.group m "type"; SStr "related"; Re.group m "relname"],
       update_uri_arguments request m)
  | None => (None, request)
  end
  end
  end
  end
  end.

(** A request resolves to the handler-table entry [key], with the path
    parameters [args] merged into its path-parameter map. *)
Definition resolves_to (self : API) (request : Request)
    (key : list scalar) (args : gmap string scalar) : Prop :=
  _get_handler self request
  = (_handler self !! key, update_uri_arguments request args).

(** The [try] block of [handle_request], on a request bound to the API. *)
Definition handle_request_try (self : API) (request : Request)
    : result Response :=
  request ← prepare_request self request;
  match _get_handler self request with
  | (None, _) => Raise (DomainError NotFound)
  | (Some handler, request) =>
      resp ← handle handler request;
      match resp with
      | Deferred builder =>
          builder ← (if is_IncludeMixin builder then fetch_include builder
                     else Return builder);
          to_response builder
      | Finished resp => Return resp
      end
  end.

(** [API.handle_request].  What the call writes to the log is left out. *)
Definition handle_request (self : API) (request : Request) : result Response :=
  if bool_decide (api request = None ∨ api request = Some (api_id self)) then
    match handle_request_try self (set_api request (api_id self)) with
    | Raise (DomainError err) =>
        if debug self then Raise (DomainError err)
        else Return (error_to_response err (dump_json self))
    | other => other
    end
  else Raise AssertionError.

(** A status of the 2xx class. *)
Definition is_2xx (status : Z) : bool := (200 <=? status) && (status <? 300).

(** Where in the [try] block of [handle_request] an exception comes from. *)
Inductive stage : Type :=
| Prepare
| Route
| Invoke
| FetchInclude
| ToResponse.

(** [raised self request err st]: on the bound request, the stages before
    [st] go through and stage [st] raises the domain error [err]. *)
Inductive raised (self : API) (request : Request) (err : Error) : stage → Prop :=
| raised_prepare :
    prepare_request self request = Raise (DomainError err) →
    raised self request err Prepare
| raised_route request1 request2 :
    prepare_request self request = Return request1 →
    _get_handler self request1 = (None, request2) →
    err = NotFound →
    raised self request err Route
| raised_invoke request1 handler request2 :
    prepare_request self request = Return request1 →
    _get_handler self request1 = (Some handler, request2) →
    handle handler request2 = Raise (DomainError err) →
    raised self request err Invoke
| raised_fetch_include request1 handler request2 builder :
    prepare_request self request = Return request1 →
    _get_handler self request1 = (Some handler, request2) →
    handle handler request2 = Return (Deferred builder) →
    is_IncludeMixin builder = true →
    fetch_include builder = Raise (DomainError err) →
    raised self request err FetchInclude
| raised_to_response request1 handler request2 builder builder' :
    prepare_request self request = Return request1 →
    _get_handler self request1 = (Some handler, request2) →
    handle handler request2 = Return (Deferred builder) →
    (if is_IncludeMixin builder then fetch_include builder else Return builder)
      = Return builder' →
    to_response builder' = Raise (DomainError err) →
    raised self request err ToResponse.

(** The objects [self.__api] can refer to, by address. *)
#[local] Abbreviation heap := (gmap nat API).

(** The loop of [path_exists] over [relationship.remote_types]: each remote
    type is looked up with [self.__api.get_includer(remote_type)] and its
    includer asked about the remaining path ([exists_at]); the first that
    says no ends the loop.  [api] is the object [self.__api] refers to;
    reading [get_includer] on it raises [AttributeError] while it is
    [None]. *)
Fixpoint all_remote_types (api : option API) (exists_at : Includer → logged bool)
    (remote_types : list string) : logged bool :=
  match remote_types with
  | [] => (Return true, [])
  | remote_type :: remote_types' =>
      match api with
      | None => (Raise AttributeError, [])
      | Some a =>
          match found (get_includer a (PyStr remote_type) None) with
          | Raise e => (Raise e, [])
          | Return remote_includer =>
              match exists_at remote_includer with
              | (Return true, log) =>
                  let '(r, log') := all_remote_types api exists_at remote_types' in
                  (r, (log ++ log')%list)
              | (Return false, log) => (Return false, log)
              | (Raise e, log) => (Raise e, log)
              end
          end
      end
  end.

(** [Includer.path_exists], with the API objects of the heap [h]. *)
Fixpoint path_exists (h : heap) (self : Includer) (path : list string)
    {struct path} : logged bool :=
  match path with
  | [] => (Return true, [])
  | name :: path =>
      match _relationships self !! name with
      | None => (Return false, [])
      | Some relationship =>
          match remote_types relationship with
          | None => (Return true, [WarnRemoteTypesUnknown path name])
          | Some remote_types =>
              all_remote_types (includer_api self ≫= (h !!.))
                (λ remote_includer, path_exists h remote_includer path)
                remote_types
          end
      end
  end.

(** The remote type [t] of a relationship of [self] confirms the path
    [rest]: its includer is found in the registry of [self.__api] and says
    that [rest] exists. *)
Definition confirms (h : heap) (self : Includer) (rest : list string)
    (t : string) : Prop :=
  ∃ a remote_includer,
    includer_api self ≫= (h !!.) = Some a
    ∧ found (get_includer a (PyStr t) None) = Return remote_includer
    ∧ outcome (path_exists h remote_includer rest) = Return true.

(** The includer of the remote type [t] is found and gives an answer about
    [rest], yes or no. *)
Definition answers (h : heap) (self : Includer) (rest : list string)
    (t : string) : Prop :=
  ∃ a remote_includer b,
    includer_api self ≫= (h !!.) = Some a
    ∧ found (get_includer a (PyStr t) None) = Return remote_includer
    ∧ outcome (path_exists h remote_includer rest) = Return b.

(** The registry of [self.__api] has no includer for the remote type [t]. *)
Definition unregistered (h : heap) (self : Includer) (t : string) : Prop :=
  ∃ a, includer_api self ≫= (h !!.) = Some a
       ∧ get_includer a (PyStr t) (@None Empty_set) = Raise KeyError.

(** The reading of [path_exists] under which any unregistered remote type of
    the head relationship makes the call raise. *)
Definition unregistered_remote_raises (h : heap) (self : Includer)
    (name : string) (rest : list string) : Prop :=
  ∀ relationship declared t,
    _relationships self !! name = Some relationship →
    remote_types relationship = Some declared →
    t ∈ declared →
    unregistered h self t →
    outcome (path_exists h self (name :: rest)) = Raise KeyError.

(** [Includer.paths_exist]: [all] stops at the first path that does not
    exist. *)
Fixpoint paths_exist (h : heap) (self : Includer) (paths : list (list string))
    : logged bool :=
  match paths with
  | [] => (Return true, [])
  | path :: paths' =>
      match path_exists h self path with
      | (Return true, log) =>
          let '(r, log') := paths_exist h self paths' in (r, (log ++ log')%list)
      | (Return false, log) => (Return false, log)
      | (Raise e, log) => (Raise e, log)
      end
  end.

(** *** The rest of [jsonapi.api] that is modelled *)

(** The property [API.uri]. *)
Definition uri (self : API) : string := _uri self.

(** [s + v] for a string [s]: a [TypeError] unless [v] is a string. *)
Definition add_str (s : string) (v : scalar) : result string :=
  match v with
  | SStr t => Return (s +:+ t)
  | _ => Raise TypeError
  end.

(** [encoder.typename] as an object. *)
Definition typename_of (encoder : Encoder) : scalar :=
  from_option SStr SNone (typename encoder).

(** [API.collection_uri]: [self._uri + "/" + encoder.typename]. *)
Definition collection_uri (self : API) (resource : pyobj) : result string :=
  encoder ← found (get_encoder self resource None);
  add_str (_uri self +:+ "/") (typename_of encoder).

(** [API.resource_uri]:
    [self._uri + "/" + encoder.typename + "/" + encoder.id(resource)]. *)
Definition resource_uri (self : API) (resource : pyobj) : result string :=
  encoder ← found (get_encoder self resource None);
  front ← add_str (_uri self +:+ "/") (typename_of encoder);
  i ← encoder_id encoder resource;
  add_str (front +:+ "/") i.

(** [API.relationship_uri]; [str.format] writes each argument with [str]. *)
Definition relationship_uri (self : API) (resource : pyobj) (relname : scalar)
    : result string :=
  encoder ← found (get_encoder self resource None);
  i ← encoder_id encoder resource;
  Return (_uri self +:+ "/" +:+ str (typename_of encoder) +:+ "/" +:+ str i
          +:+ "/relationships/" +:+ str relname).

(** [API.related_uri]. *)
Definition related_uri (self : API) (resource : pyobj) (relname : scalar)
    : result string :=
  encoder ← found (get_encoder self resource None);
  i ← encoder_id encoder resource;
  Return (_uri self +:+ "/" +:+ str (typename_of encoder) +:+ "/" +:+ str i
          +:+ "/" +:+ str relname).

(** The keys of the registry dictionaries are what [add_type] writes:
    typenames under [_encoder] and [_includer], classes under the two
    [_resource_class_to_] dictionaries. *)
Definition registry_wf (self : API) : Prop :=
  (∀ k, is_Some (_encoder self !! k) → ∃ t, k = PyStr t)
  ∧ (∀ k, is_Some (_resource_class_to_encoder self !! k) → ∃ c, k = Class c)
  ∧ (∀ k, is_Some (_includer self !! k) → ∃ t, k = PyStr t)
  ∧ (∀ k, is_Some (_resource_class_to_includer self !! k) → ∃ c, k = Class c).

(** A text without a slash. *)
Fixpoint no_slash (s : string) : bool :=
  match s with
  | EmptyString => true
  | String c s' => negb (Ascii.eqb c "/") && no_slash s'
  end.

(** A path segment: not empty, no slash. *)
Definition is_segment (s : string) : bool :=
  match s with
  | EmptyString => false
  | String _ _ => no_slash s
  end.

(** The continuation [re.fullmatch] ends with: the whole text is used up. *)
Definition at_end : string → Re.captures → option Re.captures :=
  λ s' caps, match s' with EmptyString => Some caps | _ => None end.

(** A continuation that gives up on a text starting with a character other
    than the slash. *)
Definition gives_up (k : string → Re.captures → option Re.captures) : Prop :=
  ∀ c s caps, c ≠ "/"%char → k (String c s) caps = None.

(** What may follow a path segment: nothing, or a slash. *)
Definition segment_end (rest : string) : Prop :=
  rest = "" ∨ ∃ r, rest = String "/" r.

End Definitions.
End Jsonapi.

(** ** A small application

    Concrete collaborators, handlers, encoders and includers on which the
    definitions above can be run. *)

Module Demo.
Import Py Jsonapi.

(** Three error classes with their HTTP status. *)
Inductive demo_error : Type :=
| ErrNotFound
| ErrBadRequest
| ErrForbidden.

Definition http_status (e : demo_error) : Z :=
  match e with
  | ErrNotFound => 404
  | ErrBadRequest => 400
  | ErrForbidden => 403
  end.

(** A builder holds the response it will give; an include-capable one
    carries a flag that [fetch_include] sets. *)
Record demo_builder : Type := {
  can_include : bool;
  included : bool;
  pending : Response
}.

Definition collaborators : Collaborators :=
  {| Error := demo_error;
     NotFound := ErrNotFound;
     JSON := string;
     json_dumps := λ obj _ _, obj;
     error_to_response := λ err dump,
       Response_init (Some (http_status err)) None (Some (dump "errors"));
     ResponseBuilder := demo_builder;
     is_IncludeMixin := can_include;
     fetch_include := λ b,
       Return {| can_include := can_include b; included := true;
                 pending := pending b |};
     to_response := λ b, Return (pending b) |}.

#[local] Existing Instance collaborators.

Definition ok_handler : Handler :=
  {| handle := λ _, Return (Finished (Response_init None None None)) |}.

Definition failing_handler (e : demo_error) : Handler :=
  {| handle := λ _, Raise (DomainError e) |}.

Definition widgets_table : gmap (list scalar) Handler :=
  list_to_map
    [([SStr "widgets"; SStr "collection"], ok_handler);
     ([SStr "widgets"; SStr "resource"], ok_handler);
     ([SStr "widgets"; SStr "relationship"; SStr "owner"], ok_handler);
     ([SStr "widgets"; SStr "related"; SStr "owner"], ok_handler)].

(** An API whose root uri is absolute, and one whose root uri is a path. *)
Definition absolute_api : API :=
  set_handler (API_init 0 "http://x/api" true) widgets_table.

Definition relative_api : API :=
  set_handler (API_init 0 "/api/" true) widgets_table.

Definition request_for (p : string) : Request :=
  {| api := None; path := p; japi_uri_arguments := ∅ |}.

(** An API whose only handler raises [err], in debug mode or not. *)
Definition failing_api (debug : bool) (err : demo_error) : API :=
  set_handler (API_init 0 "/api" debug)
    {[ [SStr "widgets"; SStr "collection"] := failing_handler err ]}.

(** Resource classes and encoders. *)
Definition Person : cls := UserClass 1.
Definition Article : cls := UserClass 2.
Definition Comment : cls := UserClass 3.
Definition Feed : cls := UserClass 4.

Definition encoder_for (typename : option string) (resource_class : option cls)
    : Encoder :=
  {| typename := typename;
     resource_class := resource_class;
     encoder_id := λ o,
       match o with
       | Instance _ oid => Return (SStr (pretty (Z.of_nat oid)))
       | _ => Raise TypeError
       end;
     encoder_init_api := λ _, Return () |}.

(** Accessors: nobody has an author; every article has the comments 31 and
    32. *)
Definition no_relative : pyobj → Request → Py.result demo_error relatives :=
  λ _ _, Return (Single PyNone).

Definition two_comments : pyobj → Request → Py.result demo_error relatives :=
  λ _ _, Return (Collection [Instance 3 31; Instance 3 32]).

Definition relationship (name : string) (to_one : bool)
    (remote_types : option (list string))
    (get : pyobj → Request → Py.result demo_error relatives) : Relationship :=
  {| name := Some name; to_one := to_one; remote_types := remote_types;
     get := get |}.

Definition includer_with (rels : list Relationship) : Includer :=
  {| includer_api := Some 0%nat;
     _relationships :=
       list_to_map ((λ r, (default "" (name r), r)) <$> rels) |}.

Definition author : Relationship :=
  relationship "author" true (Some ["people"]) no_relative.
Definition comments : Relationship :=
  relationship "comments" false (Some ["comments"]) two_comments.
Definition tags : Relationship :=
  relationship "tags" false None two_comments.

(** A polymorphic relationship [items]; [owner] and [maker] name the remote
    type [robots], which is not registered. *)
Definition items : Relationship :=
  relationship "items" false (Some ["articles"; "comments"]) two_comments.
Definition owner : Relationship :=
  relationship "owner" true (Some ["people"; "robots"]) no_relative.
Definition maker : Relationship :=
  relationship "maker" true (Some ["robots"; "people"]) no_relative.

Definition person_includer : Includer := includer_with [].
Definition comment_includer : Includer := includer_with [author].
Definition article_includer : Includer := includer_with [author; comments; tags].
Definition feed_includer : Includer := includer_with [items; owner; maker].

Definition register (self : API) (entry : Encoder * Includer) : API :=
  (add_type self entry.1 (Some entry.2)).1.

Definition blog_api : API :=
  foldl register (API_init 0 "/api" false)
    [(encoder_for (Some "people") (Some Person), person_includer);
     (encoder_for (Some "comments") (Some Comment), comment_includer);
     (encoder_for (Some "articles") (Some Article), article_includer);
     (encoder_for (Some "feeds") (Some Feed), feed_includer)].

Definition blog_heap : gmap nat API := {[ 0%nat := blog_api ]}.

(** More of the application: a bare API, a second class for the typename
    [people], includers bound elsewhere or nowhere, a handler that crashes,
    and an API with two custom routes, the second of which also covers the
    built-in collection paths. *)
Definition plain_api : API := API_init 0 "/api" false.

Definition Robot : cls := UserClass 5.
Definition people_encoder : Encoder := encoder_for (Some "people") (Some Person).
Definition robot_people_encoder : Encoder :=
  encoder_for (Some "people") (Some Robot).
Definition robots_encoder : Encoder := encoder_for (Some "robots") (Some Robot).

Definition foreign_includer : Includer :=
  {| includer_api := Some 9%nat; _relationships := ∅ |}.

Definition unbound_includer : Includer :=
  {| includer_api := None; _relationships := _relationships article_includer |}.

Definition crashing_handler : Handler :=
  {| handle := λ _, Raise (OtherException 1) |}.

Definition crashing_api : API :=
  set_handler plain_api
    {[ [SStr "widgets"; SStr "collection"] := crashing_handler ]}.

Definition status_rule : Re.regex := Re.seq [literal "/api/status"].
Definition catch_all_rule : Re.regex := Re.seq [literal "/api/"; segment "what"].

Definition custom_api : API :=
  {| api_id := 0; _debug := false; _uri := "/api";
     _encoder := ∅; _resource_class_to_encoder := ∅;
     _includer := ∅; _resource_class_to_includer := ∅;
     _handler := widgets_table;
     _routes := [(status_rule, failing_handler ErrForbidden);
                 (catch_all_rule, crashing_handler)];
     prepare_request := default_prepare_request |}.

Definition people_document : gmap string scalar :=
  {[ "type" := SStr "people"; "id" := SInt 7; "extra" := SStr "ignored" ]}.

End Demo.


(** * Properties *)

Import Py Jsonapi.

(** ** Matching behind a literal prefix *)

Section Matching.

Lemma run_escape (b s : string) (caps : Re.captures)
    (k : string → Re.captures → option Re.captures) :
  Re.run (Re.escape b) (b +:+ s) caps k = k s caps.
Proof.
  revert k. induction b as [|c b IH]; intros k; simpl; [done|].
  by rewrite Ascii.eqb_refl, IH.
Qed.

Lemma group_names_escape (b : string) : Re.group_names (Re.escape b) = [].
Proof. induction b as [|c b IH]; simpl; done. Qed.

Lemma fullmatch_behind_escape (b : string) (rs : list Re.regex) (s : string) :
  Re.fullmatch (Re.seq (Re.escape b :: rs)) (b +:+ s)
  = Re.fullmatch (Re.seq rs) s.
Proof.
  unfold Re.fullmatch, Re.groupdict. cbn [Re.seq foldr Re.group_names Re.run].
  by rewrite group_names_escape, run_escape.
Qed.

End Matching.

(** Evaluates the matches on closed patterns and texts in the goal. *)
Ltac eval_fullmatch :=
  repeat match goal with
  | |- context [Re.fullmatch ?r ?s] =>
      let v := eval vm_compute in (Re.fullmatch r s) in
      change (Re.fullmatch r s) with v; cbv iota beta
  end.

(** Runs [_get_handler] on a path written as the base uri followed by a
    closed text, for an API without custom routes. *)
Ltac resolve_behind_base Hroutes :=
  unfold resolves_to, _get_handler; rewrite Hroutes;
  cbn [custom_route path set_path];
  unfold collection_re, resource_re, relationship_re, related_re;
  rewrite !fullmatch_behind_escape;
  eval_fullmatch; f_equal.

(** ** Route resolution *)

Section Routing.
Context `{Collaborators}.

(** The stored base uri has no trailing slash. *)
Lemma rstrip_slash_idempotent (s : string) :
  rstrip_slash (rstrip_slash s) = rstrip_slash s.
Proof.
  induction s as [|c s IH]; simpl; [done|].
  destruct (rstrip_slash s) as [|c' t] eqn:Hs.
  - destruct (Ascii.eqb c "/") eqn:Hc; simpl; [done|]. by rewrite Hc.
  - simpl in *. by rewrite IH.
Qed.

(** C1, as amended.  For an API without custom routes and with any stored
    base uri [B], the request paths [B/widgets], [B/widgets/42],
    [B/widgets/42/relationships/owner] and [B/widgets/42/owner] (the path
    begins with the base uri itself, as with base [/api] and path
    [/api/widgets]) match the Collection, Resource, Relationship and Related
    patterns in turn: [_get_handler] looks up the handler-table keys
    [(widgets, collection)], [(widgets, resource)], [(widgets, relationship,
    owner)], [(widgets, related, owner)] and merges the path parameters
    [{type: widgets}], [{type: widgets, id: 42}] and, for the last two,
    [{type: widgets, id: 42, relname: owner}] into the request's
    path-parameter map. *)
Theorem builtin_routes_behind_base_uri (self : API) (request : Request) :
  _routes self = [] →
  let behind_base p := set_path request (_uri self +:+ p) in
  resolves_to self (behind_base "/widgets")
    [SStr "widgets"; SStr "collection"]
    {[ "type" := SStr "widgets" ]}
  ∧ resolves_to self (behind_base "/widgets/42")
      [SStr "widgets"; SStr "resource"]
      {[ "type" := SStr "widgets"; "id" := SStr "42" ]}
  ∧ resolves_to self (behind_base "/widgets/42/relationships/owner")
      [SStr "widgets"; SStr "relationship"; SStr "owner"]
      {[ "type" := SStr "widgets"; "id" := SStr "42";
         "relname" := SStr "owner" ]}
  ∧ resolves_to self (behind_base "/widgets/42/owner")
      [SStr "widgets"; SStr "related"; SStr "owner"]
      {[ "type" := SStr "widgets"; "id" := SStr "42";
         "relname" := SStr "owner" ]}.
Proof.
  intros Hroutes behind_base. subst behind_base. cbv beta.
  repeat split; resolve_behind_base Hroutes.
Qed.

End Routing.

(** The amended C1 at the base uri [/api]. *)
Lemma builtin_routes_behind_base_uri_witness :
  _routes Demo.relative_api = []
  ∧ resolves_to Demo.relative_api (Demo.request_for "/api/widgets")
      [SStr "widgets"; SStr "collection"]
      {[ "type" := SStr "widgets" ]}
  ∧ resolves_to Demo.relative_api (Demo.request_for "/api/widgets/42")
      [SStr "widgets"; SStr "resource"]
      {[ "type" := SStr "widgets"; "id" := SStr "42" ]}
  ∧ resolves_to Demo.relative_api
      (Demo.request_for "/api/widgets/42/relationships/owner")
      [SStr "widgets"; SStr "relationship"; SStr "owner"]
      {[ "type" := SStr "widgets"; "id" := SStr "42";
         "relname" := SStr "owner" ]}
  ∧ resolves_to Demo.relative_api (Demo.request_for "/api/widgets/42/owner")
      [SStr "widgets"; SStr "related"; SStr "owner"]
      {[ "type" := SStr "widgets"; "id" := SStr "42";
         "relname" := SStr "owner" ]}.
Proof.
  split; [reflexivity|].
  exact (builtin_routes_behind_base_uri (H := Demo.collaborators)
           Demo.relative_api (Demo.request_for "") eq_refl).
Defined.

(** C1 as stated fails.  With the base uri [http://x/api], no custom routes
    and handlers registered for all four endpoints of [widgets], none of the
    paths [/widgets], [/widgets/42], [/widgets/42/relationships/owner],
    [/widgets/42/owner] resolves: no built-in pattern matches. *)
Lemma absolute_base_uri_resolves_nothing :
  ¬ resolves_to Demo.absolute_api (Demo.request_for "/widgets")
      [SStr "widgets"; SStr "collection"]
      {[ "type" := SStr "widgets" ]}
  ∧ ¬ resolves_to Demo.absolute_api (Demo.request_for "/widgets/42")
      [SStr "widgets"; SStr "resource"]
      {[ "type" := SStr "widgets"; "id" := SStr "42" ]}
  ∧ ¬ resolves_to Demo.absolute_api
      (Demo.request_for "/widgets/42/relationships/owner")
      [SStr "widgets"; SStr "relationship"; SStr "owner"]
      {[ "type" := SStr "widgets"; "id" := SStr "42";
         "relname" := SStr "owner" ]}
  ∧ ¬ resolves_to Demo.absolute_api (Demo.request_for "/widgets/42/owner")
      [SStr "widgets"; SStr "related"; SStr "owner"]
      {[ "type" := SStr "widgets"; "id" := SStr "42";
         "relname" := SStr "owner" ]}.
Proof.
  repeat split; intros Heq; apply (f_equal fst) in Heq;
    vm_compute in Heq; discriminate Heq.
Qed.

(** What [_get_handler] does there: no handler, the request untouched. *)
Example absolute_base_uri_no_handler :
  Forall (λ p, _get_handler Demo.absolute_api (Demo.request_for p)
               = (None, Demo.request_for p))
    ["/widgets"; "/widgets/42"; "/widgets/42/relationships/owner";
     "/widgets/42/owner"; "/api/widgets"].
Proof. repeat constructor. Qed.

(** ** Dispatch *)

Section Dispatch.
Context `{Collaborators}.

Lemma raised_try (self : API) (request : Request) (err : Error) (st : stage) :
  raised self request err st →
  handle_request_try self request = Raise (DomainError err).
Proof.
  unfold handle_request_try.
  destruct 1 as [Hp | r1 r2 Hp Hg -> | r1 hd r2 Hp Hg Hh
                | r1 hd r2 b Hp Hg Hh Hm Hf | r1 hd r2 b b' Hp Hg Hh Hf Ht];
    rewrite Hp; simpl; try done; rewrite Hg; simpl; try done;
    rewrite Hh; simpl; try done.
  - by rewrite Hm, Hf.
  - by rewrite Hf; simpl.
Qed.

(** Every domain error that leaves the [try] block comes from one of the
    five stages. *)
Lemma try_raised (self : API) (request : Request) (err : Error) :
  handle_request_try self request = Raise (DomainError err) →
  ∃ st, raised self request err st.
Proof.
  unfold handle_request_try. intros Htry.
  destruct (prepare_request self request) as [r1|e] eqn:Hp; simpl in Htry.
  2:{ exists Prepare. apply raised_prepare. by injection Htry as ->. }
  destruct (_get_handler self r1) as [[hd|] r2] eqn:Hg.
  2:{ exists Route. eapply raised_route; eauto. by injection Htry. }
  destruct (handle hd r2) as [[resp|b]|e] eqn:Hh; simpl in Htry; [done| |].
  2:{ exists Invoke. eapply raised_invoke; eauto. by injection Htry as ->. }
  destruct (if is_IncludeMixin b then fetch_include b else Return b)
    as [b'|e] eqn:Hf; simpl in Htry.
  - exists ToResponse. eapply raised_to_response; eauto.
  - exists FetchInclude. destruct (is_IncludeMixin b) eqn:Hm; [|done].
    eapply raised_fetch_include; eauto. by injection Htry as ->.
Qed.

(** C2.  Let the request be unbound or bound to this API, and let the domain
    error [err] be raised while preparing, routing, handling or finalising
    the builder.  In debug mode [handle_request] raises that same error and
    so gives no response; otherwise it returns the response
    [error_to_response] builds from the error and raises nothing.  That
    response has a status outside 2xx as soon as the collaborator
    [error_to_response] never produces a 2xx status. *)
Theorem dispatcher_error_policy (self : API) (request : Request)
    (err : Error) (st : stage) :
  (∀ e dump, is_2xx (status (error_to_response e dump)) = false) →
  api request = None ∨ api request = Some (api_id self) →
  raised self (set_api request (api_id self)) err st →
  handle_request self request
  = (if debug self then Raise (DomainError err)
     else Return (error_to_response err (dump_json self)))
  ∧ is_2xx (status (error_to_response err (dump_json self))) = false.
Proof.
  intros Hstatus Hbound Hraised. split; [|apply Hstatus].
  unfold handle_request. rewrite bool_decide_eq_true_2 by done.
  by rewrite (raised_try _ _ _ _ Hraised).
Qed.

End Dispatch.

(** C2 on an API whose handler raises [ErrForbidden], with debug mode on and
    off. *)
Lemma dispatcher_error_policy_witness :
  (handle_request (Demo.failing_api true Demo.ErrForbidden)
     (Demo.request_for "/api/widgets")
   = Raise (DomainError Demo.ErrForbidden)
   ∧ is_2xx 403 = false)
  ∧ (handle_request (Demo.failing_api false Demo.ErrForbidden)
       (Demo.request_for "/api/widgets")
     = Return (Response_init (Some 403) None (Some "errors"))
     ∧ is_2xx (status (Response_init (Some 403) None (Some "errors"))) = false).
Proof.
  assert (Hstatus : ∀ (e : Demo.demo_error) (dump : string → string),
    is_2xx (status (error_to_response (Collaborators := Demo.collaborators)
                      e dump)) = false)
    by (intros [] dump; reflexivity).
  split.
  - refine (dispatcher_error_policy (H := Demo.collaborators)
      (Demo.failing_api true Demo.ErrForbidden)
      (Demo.request_for "/api/widgets") Demo.ErrForbidden Invoke
      Hstatus (or_introl eq_refl) _).
    eapply (raised_invoke (H := Demo.collaborators)); reflexivity.
  - refine (dispatcher_error_policy (H := Demo.collaborators)
      (Demo.failing_api false Demo.ErrForbidden)
      (Demo.request_for "/api/widgets") Demo.ErrForbidden Invoke
      Hstatus (or_introl eq_refl) _).
    eapply (raised_invoke (H := Demo.collaborators)); reflexivity.
Defined.

(** ** The registry *)

Section Registry.
Context `{Collaborators}.

Lemma registry_get_unmatched {A D} (by_typename by_class : gmap pyobj A)
    (o : pyobj) (default : option D) :
  unmatched by_typename by_class o →
  registry_get by_typename by_class o default
  = match default with
    | Some d => Return (inr d)
    | None => Raise KeyError
    end.
Proof. intros (Ht & Hc & Hi). unfold registry_get. by rewrite Ht, Hc, Hi. Qed.

(** C4.  When none of the three lookups (by typename, by resource class, by
    the class of the object) finds an encoder for the key, [get_encoder]
    without a default raises the lookup error, which is [KeyError], and with
    a default returns that default; and the same for [get_includer]. *)
Theorem registry_lookup_failure {D} (self : API) (o : pyobj) (d : D) :
  (unmatched (_encoder self) (_resource_class_to_encoder self) o →
   get_encoder self o (@None D) = Raise KeyError
   ∧ get_encoder self o (Some d) = Return (inr d))
  ∧ (unmatched (_includer self) (_resource_class_to_includer self) o →
     get_includer self o (@None D) = Raise KeyError
     ∧ get_includer self o (Some d) = Return (inr d)).
Proof.
  split; intros Hun; unfold get_encoder, get_includer;
    by rewrite !registry_get_unmatched.
Qed.

(** C5, what the code does instead.  An encoder without a resource class, or
    without a typename, makes [add_type] raise [AttributeError] while it
    builds the warning (it reads [self.typename] on the API): nothing is
    logged and the API is left as it was, the encoder is not registered. *)
Theorem add_type_incomplete_encoder_raises (self : API) (encoder : Encoder)
    (includer : option Includer) :
  resource_class encoder = None ∨ typename encoder = None →
  add_type self encoder includer = (self, (Raise AttributeError, [])).
Proof.
  unfold add_type.
  destruct (resource_class encoder), (typename encoder); simpl;
    intros [?|?]; done.
Qed.

(** C6, what the code does.  [ensure_identifier_object(None)] is [None] for
    every API, without a lookup.  [ensure_identifier(None)] goes to the
    registry: it raises [KeyError] whenever no encoder is found for [None]. *)
Theorem ensure_identifier_of_None (self : API) :
  ensure_identifier_object self (RefObject PyNone) = Return None
  ∧ (unmatched (_encoder self) (_resource_class_to_encoder self) PyNone →
     ensure_identifier self (RefObject PyNone) = Raise KeyError).
Proof.
  split; [done|]. intros Hun. unfold ensure_identifier, get_encoder.
  by rewrite registry_get_unmatched.
Qed.

End Registry.

(** C4 on the blog API: nothing is registered for [robots]. *)
Lemma registry_lookup_failure_witness :
  (get_encoder Demo.blog_api (PyStr "robots") (@None nat) = Raise KeyError
   ∧ get_encoder Demo.blog_api (PyStr "robots") (Some 7%nat) = Return (inr 7%nat))
  ∧ (get_includer Demo.blog_api (PyStr "robots") (@None nat) = Raise KeyError
     ∧ get_includer Demo.blog_api (PyStr "robots") (Some 7%nat)
       = Return (inr 7%nat)).
Proof.
  destruct (registry_lookup_failure (H := Demo.collaborators)
              Demo.blog_api (PyStr "robots") 7%nat) as [Henc Hinc].
  split; [apply Henc | apply Hinc]; repeat split; vm_compute; reflexivity.
Defined.

(** C5's failing input: an encoder with the typename [widgets] and no
    resource class. *)
Lemma add_type_incomplete_encoder_raises_witness :
  resource_class (Demo.encoder_for (Some "widgets") None) = None
  ∧ add_type Demo.blog_api (Demo.encoder_for (Some "widgets") None) None
    = (Demo.blog_api, (Raise AttributeError, []))
  ∧ get_encoder Demo.blog_api (PyStr "widgets") (@None Empty_set)
    = Raise KeyError.
Proof.
  split; [reflexivity|]. split.
  - exact (add_type_incomplete_encoder_raises (H := Demo.collaborators)
             Demo.blog_api (Demo.encoder_for (Some "widgets") None) None
             (or_introl eq_refl)).
  - vm_compute; reflexivity.
Defined.

(** C6's failing input: [None] on the blog API. *)
Lemma ensure_identifier_of_None_witness :
  ensure_identifier_object Demo.blog_api (RefObject PyNone) = Return None
  ∧ ensure_identifier Demo.blog_api (RefObject PyNone) = Raise KeyError.
Proof.
  destruct (ensure_identifier_of_None (H := Demo.collaborators) Demo.blog_api)
    as [Hobj Htuple].
  split; [exact Hobj|]. apply Htuple. repeat split; vm_compute; reflexivity.
Defined.

(** ** Include paths *)

Section IncludePaths.
Context `{Collaborators}.

Implicit Types (h : gmap nat API) (self : Includer) (rest : list string).

(** The loop over the remote types says yes exactly when every remote type
    is found and its includer says yes. *)
Lemma all_remote_types_true (api : option API)
    (exists_at : Includer → Py.logged Error bool) (declared : list string) :
  outcome (all_remote_types api exists_at declared) = Return true
  ↔ Forall (λ t, ∃ a inc, api = Some a
                 ∧ found (get_includer a (PyStr t) None) = Return inc
                 ∧ outcome (exists_at inc) = Return true) declared.
Proof.
  induction declared as [|t ts IH]; simpl.
  { split; [constructor | done]. }
  split.
  - destruct api as [a|]; [|done].
    destruct (found (get_includer a (PyStr t) None)) as [inc|e] eqn:Hf; [|done].
    destruct (exists_at inc) as [[[]|e] log] eqn:Hx; [|done|done].
    destruct (all_remote_types (Some a) exists_at ts) as [r log'] eqn:Hr.
    unfold outcome in *; simpl in *. intros ->. constructor.
    + exists a, inc. by rewrite Hx.
    + by apply IH.
  - intros Hall. apply Forall_cons in Hall as [(a & inc & -> & Hf & Hx) Hts].
    rewrite Hf. destruct (exists_at inc) as [r log]. unfold outcome in Hx.
    simpl in Hx. subst r. apply IH in Hts.
    destruct (all_remote_types (Some a) exists_at ts) as [r log']. done.
Qed.

(** If every remote type is found and its includer answers, the loop
    answers. *)
Lemma all_remote_types_answers (api : option API)
    (exists_at : Includer → Py.logged Error bool) (declared : list string) :
  Forall (λ t, ∃ a inc b, api = Some a
               ∧ found (get_includer a (PyStr t) None) = Return inc
               ∧ outcome (exists_at inc) = Return b) declared →
  ∃ b, outcome (all_remote_types api exists_at declared) = Return b.
Proof.
  induction declared as [|t ts IH]; simpl; [by exists true|].
  intros Hall. apply Forall_cons in Hall as [(a & inc & b & -> & Hf & Hx) Hts].
  rewrite Hf. destruct (exists_at inc) as [r log]. unfold outcome in Hx.
  simpl in Hx. subst r. destruct b; [|by exists false].
  destruct (IH Hts) as [b Hb].
  destruct (all_remote_types (Some a) exists_at ts) as [r log']. by exists b.
Qed.

(** The loop raises at the first remote type that is not found, when the
    ones before it were found and said yes. *)
Lemma all_remote_types_first_unregistered (a : API)
    (exists_at : Includer → Py.logged Error bool) (before after : list string)
    (t : string) :
  Forall (λ t', ∃ inc, found (get_includer a (PyStr t') None) = Return inc
                ∧ outcome (exists_at inc) = Return true) before →
  get_includer a (PyStr t) (@None Empty_set) = Raise KeyError →
  outcome (all_remote_types (Some a) exists_at (before ++ t :: after))
  = Raise KeyError.
Proof.
  intros Hbefore Ht. induction Hbefore as [|t' before (inc & Hf & Hx) _ IH]; simpl.
  - by rewrite Ht.
  - rewrite Hf. destruct (exists_at inc) as [r log]. unfold outcome in Hx.
    simpl in Hx. subst r.
    by destruct (all_remote_types (Some a) exists_at (before ++ t :: after)).
Qed.

(** C3.  [path_exists] on the empty path is true.  On [name :: rest]: false
    when [name] has no descriptor; true, with one warning, when the
    descriptor's remote types are unknown; otherwise true exactly when every
    declared remote type has an includer in the registry that confirms
    [rest], and, when each of these includers answers, the call answers. *)
Theorem path_exists_semantics h self :
  path_exists h self [] = (Return true, [])
  ∧ (∀ name rest,
       _relationships self !! name = None →
       path_exists h self (name :: rest) = (Return false, []))
  ∧ (∀ name rest relationship,
       _relationships self !! name = Some relationship →
       remote_types relationship = None →
       path_exists h self (name :: rest)
       = (Return true, [WarnRemoteTypesUnknown rest name]))
  ∧ (∀ name rest relationship declared,
       _relationships self !! name = Some relationship →
       remote_types relationship = Some declared →
       (outcome (path_exists h self (name :: rest)) = Return true
        ↔ Forall (confirms h self rest) declared)
       ∧ (Forall (answers h self rest) declared →
          ∃ b, outcome (path_exists h self (name :: rest)) = Return b)).
Proof.
  split; [done|]. split; [|split].
  - intros name rest Hname. simpl. by rewrite Hname.
  - intros name rest relationship Hname Hremote. simpl. by rewrite Hname, Hremote.
  - intros name rest relationship declared Hname Hremote. simpl.
    rewrite Hname, Hremote. split.
    + rewrite all_remote_types_true. unfold confirms. done.
    + intros Hans. apply all_remote_types_answers. exact Hans.
Qed.

(** C10, as amended.  The remote types are looked up in the order they are
    declared, and the loop ends at the first includer that says no: when a
    declared remote type has no includer in the registry and every remote
    type declared before it has one that confirms the rest of the path, the
    call raises [KeyError]. *)
Theorem path_exists_first_unregistered_remote h self name rest relationship
    (before after : list string) (t : string) :
  _relationships self !! name = Some relationship →
  remote_types relationship = Some (before ++ t :: after)%list →
  Forall (confirms h self rest) before →
  unregistered h self t →
  outcome (path_exists h self (name :: rest)) = Raise KeyError.
Proof.
  intros Hname Hremote Hbefore (a & Ha & Ht). simpl.
  rewrite Hname, Hremote, Ha.
  apply all_remote_types_first_unregistered; [|done].
  eapply Forall_impl; [exact Hbefore|].
  intros t' (a' & inc & Ha' & Hf & Hx). exists inc.
  rewrite Ha in Ha'. by injection Ha' as ->.
Qed.

End IncludePaths.

(** ** Fetching *)

Section Fetching.
Context `{Collaborators}.

Implicit Types (self : Includer) (resources : list pyobj)
  (request : Request) (related : gset pyobj).

(** The to-one loop, when every accessor call returns an object. *)
Lemma add_each_single (relationship : Relationship) request
    (relative : pyobj → pyobj) resources related :
  Forall (λ r, get relationship r request = Return (Single (relative r)))
    resources →
  add_each relationship request resources related
  = Return (list_to_set (relative <$> resources) ∪ related).
Proof.
  revert related.
  induction resources as [|r rs IH]; intros related Hall; simpl.
  - f_equal. set_solver.
  - apply Forall_cons in Hall as [Hr Hrs]. rewrite Hr, IH by done.
    f_equal. set_solver.
Qed.

(** C7.  Let the head of the path name a to-one relationship.  Whatever set
    [fetch_path] returns does not contain [None]; when the accessor returns
    an object for every input resource, [fetch_path] returns the set of
    these objects without [None]; and when the accessor returns [None] for
    every input resource, it returns the empty set. *)
Theorem fetch_path_to_one_excludes_None self resources name
    (rest : list string) request (relationship : Relationship) :
  _relationships self !! name = Some relationship →
  to_one relationship = true →
  (∀ related,
     fetch_path self resources (name :: rest) request = Return related →
     PyNone ∉ related)
  ∧ (∀ relative : pyobj → pyobj,
       Forall (λ r, get relationship r request = Return (Single (relative r)))
         resources →
       fetch_path self resources (name :: rest) request
       = Return (list_to_set (relative <$> resources) ∖ {[PyNone]}))
  ∧ (Forall (λ r, get relationship r request = Return (Single PyNone))
       resources →
     fetch_path self resources (name :: rest) request = Return ∅).
Proof.
  intros Hname Hone. unfold fetch_path. rewrite Hname, Hone.
  split; [|split].
  - intros related.
    destruct (add_each relationship request resources ∅) as [s|e]; simpl;
      [|done].
    intros [= <-]. set_solver.
  - intros relative Hall. rewrite (add_each_single _ _ relative) by done.
    simpl. f_equal. set_solver.
  - intros Hall. rewrite (add_each_single _ _ (λ _, PyNone)) by done.
    simpl. f_equal. apply set_eq. intros x.
    rewrite elem_of_difference, elem_of_union, elem_of_list_to_set,
      list_elem_of_fmap.
    set_solver.
Qed.

(** C8.  Only the head of the path counts: [fetch_path] on [name :: rest]
    is [fetch_path] on [[name]], for every includer, every list of
    resources and every request, whether it returns or raises. *)
Theorem fetch_path_ignores_tail self resources (name : string)
    (rest : list string) request :
  fetch_path self resources (name :: rest) request
  = fetch_path self resources [name] request.
Proof. reflexivity. Qed.

(** C9.  On the empty path [fetch_path] raises ([ValueError], from the
    unpacking) where [path_exists] returns true; on a path whose head is not
    a relationship of the includer [fetch_path] raises [KeyError] where
    [path_exists] returns false. *)
Theorem fetch_path_partial_where_path_exists_total (h : gmap nat API) self
    resources request :
  (fetch_path self resources [] request = Raise ValueError
   ∧ path_exists h self [] = (Return true, []))
  ∧ (∀ (name : string) (rest : list string),
       _relationships self !! name = None →
       fetch_path self resources (name :: rest) request = Raise KeyError
       ∧ path_exists h self (name :: rest) = (Return false, [])).
Proof.
  split; [done|]. intros name rest Hname. simpl. by rewrite Hname.
Qed.

End Fetching.

(** ** The properties on the blog API *)

Section OnTheBlog.
Import Demo.
#[local] Existing Instance collaborators.

(** C3 on the feed includer, whose relationship [items] is polymorphic over
    [articles] and [comments]: both have an [author], only articles have
    [comments]. *)
Lemma path_exists_semantics_witness :
  path_exists blog_heap feed_includer [] = (Return true, [])
  ∧ path_exists blog_heap feed_includer ["nowhere"; "author"]
    = (Return false, [])
  ∧ path_exists blog_heap article_includer ["tags"; "author"]
    = (Return true, [WarnRemoteTypesUnknown ["author"] "tags"])
  ∧ Forall (confirms blog_heap feed_includer ["author"]) ["articles"; "comments"]
  ∧ ¬ Forall (confirms blog_heap feed_includer ["comments"])
        ["articles"; "comments"]
  ∧ ∃ b, outcome (path_exists blog_heap feed_includer ["items"; "comments"])
         = Return b.
Proof.
  destruct (path_exists_semantics blog_heap feed_includer)
    as (Hempty & Habsent & _ & Hknown).
  destruct (path_exists_semantics blog_heap article_includer)
    as (_ & _ & Hunknown & _).
  split; [exact Hempty|].
  split; [apply Habsent; vm_compute; reflexivity|].
  split; [apply (Hunknown "tags" ["author"] tags); vm_compute; reflexivity|].
  split; [|split].
  - apply (Hknown "items" ["author"] items ["articles"; "comments"]);
      vm_compute; reflexivity.
  - intros Hall.
    apply (Hknown "items" ["comments"] items ["articles"; "comments"]) in Hall;
      [|vm_compute; reflexivity..].
    vm_compute in Hall. discriminate Hall.
  - apply (Hknown "items" ["comments"] items ["articles"; "comments"]);
      [vm_compute; reflexivity..|].
    repeat apply Forall_cons_2; [| |apply Forall_nil_2].
    + exists blog_api, article_includer, true.
      repeat split; vm_compute; reflexivity.
    + exists blog_api, comment_includer, false.
      repeat split; vm_compute; reflexivity.
Defined.

(** C10 as stated fails.  The relationship [owner] declares the remote types
    [people] and [robots]; [robots] has no includer; on the path
    [owner.x] the includer of [people] says no and the call returns false
    without looking [robots] up. *)
Lemma unregistered_remote_not_reached :
  ¬ unregistered_remote_raises blog_heap feed_includer "owner" ["x"].
Proof.
  intros Hclaim.
  specialize (Hclaim owner ["people"; "robots"] "robots").
  assert (Hraise :
    outcome (path_exists blog_heap feed_includer ["owner"; "x"])
    = Raise KeyError).
  { apply Hclaim; [vm_compute; reflexivity..| |].
    - apply list_elem_of_In. right. left. reflexivity.
    - exists blog_api. split; vm_compute; reflexivity. }
  vm_compute in Hraise. discriminate Hraise.
Qed.

(** What the call returns there. *)
Example unregistered_remote_returns_false :
  path_exists blog_heap feed_includer ["owner"; "x"] = (Return false, []).
Proof. vm_compute. reflexivity. Qed.

(** The amended C10 on the path [owner]: [people] confirms the empty rest,
    then [robots] is looked up. *)
Lemma path_exists_first_unregistered_remote_witness :
  outcome (path_exists blog_heap feed_includer ["owner"]) = Raise KeyError.
Proof.
  apply (path_exists_first_unregistered_remote blog_heap feed_includer
           "owner" [] owner ["people"] [] "robots");
    [vm_compute; reflexivity..| |].
  - apply Forall_cons_2; [|apply Forall_nil_2].
    exists blog_api, person_includer. repeat split; vm_compute; reflexivity.
  - exists blog_api. split; vm_compute; reflexivity.
Defined.

(** C7 on the articles 1 and 2, none of which has an author. *)
Lemma fetch_path_to_one_excludes_None_witness :
  fetch_path article_includer [Instance 2 1; Instance 2 2]
    ["author"; "friends"] (request_for "/api/articles")
  = Return ∅
  ∧ PyNone ∉ (∅ : gset pyobj).
Proof.
  destruct (fetch_path_to_one_excludes_None article_includer
              [Instance 2 1; Instance 2 2] "author" ["friends"]
              (request_for "/api/articles") author
              ltac:(vm_compute; reflexivity) eq_refl)
    as (Hnone & _ & Hempty).
  assert (Hfetch :
    fetch_path article_includer [Instance 2 1; Instance 2 2]
      ["author"; "friends"] (request_for "/api/articles") = Return ∅).
  { apply Hempty. repeat apply Forall_cons_2; try apply Forall_nil_2;
      reflexivity. }
  split; [exact Hfetch | exact (Hnone ∅ Hfetch)].
Defined.

(** C9 on the feed includer. *)
Lemma fetch_path_partial_where_path_exists_total_witness :
  (fetch_path feed_includer [Instance 4 1] [] (request_for "/api/feeds")
   = Raise ValueError
   ∧ path_exists blog_heap feed_includer [] = (Return true, []))
  ∧ (fetch_path feed_includer [Instance 4 1] ["nowhere"]
       (request_for "/api/feeds") = Raise KeyError
     ∧ path_exists blog_heap feed_includer ["nowhere"] = (Return false, [])).
Proof.
  destruct (fetch_path_partial_where_path_exists_total blog_heap feed_includer
              [Instance 4 1] (request_for "/api/feeds")) as [Hempty Hunknown].
  split; [exact Hempty|].
  apply (Hunknown "nowhere" []). vm_compute; reflexivity.
Defined.

(** The asymmetry of C8 next to [path_exists]: the tail changes what
    [path_exists] says, not what [fetch_path] fetches. *)
Example tail_matters_to_path_exists_only :
  outcome (path_exists blog_heap feed_includer ["items"; "author"])
  ≠ outcome (path_exists blog_heap feed_includer ["items"; "comments"])
  ∧ fetch_path feed_includer [Instance 4 1] ["items"; "author"]
      (request_for "/api/feeds")
    = fetch_path feed_includer [Instance 4 1] ["items"; "comments"]
        (request_for "/api/feeds").
Proof. split; [vm_compute; discriminate | reflexivity]. Qed.

End OnTheBlog.

(** ** Registration and lookup *)

Section Registration.
Context `{Collaborators}.

Lemma keys_insert {A} (P : pyobj → Prop) (m : gmap pyobj A) (k0 : pyobj) (x : A) :
  P k0 → (∀ k, is_Some (m !! k) → P k) →
  ∀ k, is_Some (<[k0 := x]> m !! k) → P k.
Proof.
  intros Hk0 Hm k. rewrite lookup_insert_is_Some.
  intros [<-|[_ Hk]]; [done|by apply Hm].
Qed.

Lemma API_init_wf (addr : nat) (base : string) (dbg : bool) :
  registry_wf (API_init addr base dbg).
Proof.
  repeat split; intros k; simpl; rewrite lookup_empty; by intros [? ?].
Qed.

Lemma add_type_wf (self : API) (encoder : Encoder) (includer : option Includer) :
  registry_wf self → registry_wf (add_type self encoder includer).1.
Proof.
  intros (He & Hce & Hi & Hci). unfold add_type.
  destruct (resource_class encoder) as [c|], (typename encoder) as [t|];
    simpl; try done.
  destruct (encoder_init_api encoder (api_id self)); simpl; [|done].
  destruct includer as [inc|]; simpl.
  - destruct (Includer_init_api inc (api_id self)); simpl;
      repeat split; simpl; try done;
      apply keys_insert; eauto.
  - repeat split; simpl; try done; apply keys_insert; eauto.
Qed.

(** The keys of the registry stay of the right kind: a new API has a
    well-keyed registry, and [add_type] keeps it well-keyed whatever its
    outcome. *)
Theorem registry_keys_invariant :
  (∀ addr base dbg, registry_wf (API_init addr base dbg))
  ∧ (∀ self encoder includer,
       registry_wf self → registry_wf (add_type self encoder includer).1).
Proof. split; [apply API_init_wf | apply add_type_wf]. Qed.

(** What [add_type] does with a complete encoder and no includer. *)
Lemma add_type_encoder_only (self : API) (encoder : Encoder) (t : string) (c : cls) :
  typename encoder = Some t →
  resource_class encoder = Some c →
  encoder_init_api encoder (api_id self) = Return () →
  add_type self encoder None
  = ({| api_id := api_id self; _debug := _debug self; _uri := _uri self;
        _encoder := <[PyStr t := encoder]> (_encoder self);
        _resource_class_to_encoder :=
          <[Class c := encoder]> (_resource_class_to_encoder self);
        _includer := _includer self;
        _resource_class_to_includer := _resource_class_to_includer self;
        _handler := _handler self; _routes := _routes self;
        prepare_request := prepare_request self |},
     (Return (), [])).
Proof. intros Ht Hc Hinit. unfold add_type. by rewrite Ht, Hc, Hinit. Qed.

(** The three lookups after [add_type] of a complete encoder. *)
Lemma get_encoder_registered {D} (self : API) (encoder : Encoder)
    (t : string) (n : nat) (default : option D) :
  registry_wf self →
  typename encoder = Some t →
  resource_class encoder = Some (UserClass n) →
  encoder_init_api encoder (api_id self) = Return () →
  get_encoder (add_type self encoder None).1 (PyStr t) default
  = Return (inl encoder)
  ∧ get_encoder (add_type self encoder None).1 (Class (UserClass n)) default
    = Return (inl encoder)
  ∧ ∀ oid, get_encoder (add_type self encoder None).1 (Instance n oid) default
           = Return (inl encoder).
Proof.
  intros (He & Hce & _) Ht Hc Hinit.
  rewrite (add_type_encoder_only _ _ t (UserClass n)) by done.
  unfold get_encoder, registry_get; simpl.
  split; [|split].
  - by rewrite lookup_insert_eq.
  - rewrite lookup_insert_ne by done.
    destruct (_encoder self !! Class (UserClass n)) eqn:Hk.
    { destruct (He (Class (UserClass n))) as [? ?]; [by eexists|done]. }
    by rewrite lookup_insert_eq.
  - intros oid. rewrite !lookup_insert_ne by done.
    destruct (_encoder self !! Instance n oid) eqn:Hk.
    { destruct (He (Instance n oid)) as [? ?]; [by eexists|done]. }
    destruct (_resource_class_to_encoder self !! Instance n oid) eqn:Hk'.
    { destruct (Hce (Instance n oid)) as [? ?]; [by eexists|done]. }
    simpl. by rewrite lookup_insert_eq.
Qed.

(** Registration round trip.  After [add_type] of an encoder that has a
    typename and a resource class, on an API with a well-keyed registry,
    [get_encoder] gives that encoder back for the typename, for the resource
    class and for every instance of the class, with or without a default;
    the call logs nothing. *)
Theorem add_type_then_get_encoder {D} (self : API) (encoder : Encoder)
    (t : string) (n : nat) (default : option D) :
  registry_wf self →
  typename encoder = Some t →
  resource_class encoder = Some (UserClass n) →
  encoder_init_api encoder (api_id self) = Return () →
  (add_type self encoder None).2 = (Return (), [])
  ∧ get_encoder (add_type self encoder None).1 (PyStr t) default
    = Return (inl encoder)
  ∧ get_encoder (add_type self encoder None).1 (Class (UserClass n)) default
    = Return (inl encoder)
  ∧ ∀ oid, get_encoder (add_type self encoder None).1 (Instance n oid) default
           = Return (inl encoder).
Proof.
  intros Hwf Ht Hc Hinit. split.
  - by rewrite (add_type_encoder_only _ _ t (UserClass n)).
  - by apply get_encoder_registered.
Qed.

End Registration.

Section RegistrationFrame.
Context `{Collaborators}.

(** The encoder dictionaries after [add_type], key by key. *)
Lemma add_type_encoder_keys (self : API) (encoder : Encoder)
    (includer : option Includer) (k : pyobj) :
  (k ≠ typename_key (typename encoder) →
   _encoder (add_type self encoder includer).1 !! k = _encoder self !! k)
  ∧ ((∀ c, resource_class encoder = Some c → k ≠ Class c) →
     _resource_class_to_encoder (add_type self encoder includer).1 !! k
     = _resource_class_to_encoder self !! k).
Proof.
  unfold add_type.
  destruct (resource_class encoder) as [c|], (typename encoder) as [t|];
    simpl; try done.
  destruct (encoder_init_api encoder (api_id self)); simpl; [|done].
  destruct includer as [inc|]; simpl;
    [destruct (Includer_init_api inc (api_id self)); simpl|];
    (split; [intros Hk; by rewrite lookup_insert_ne
            |intros Hk; rewrite lookup_insert_ne; [done|];
             intros <-; by apply (Hk c)]).
Qed.

(** The includer dictionaries after [add_type], key by key. *)
Lemma add_type_includer_keys (self : API) (encoder : Encoder)
    (includer : option Includer) (k : pyobj) :
  (k ≠ typename_key (typename encoder) →
   _includer (add_type self encoder includer).1 !! k = _includer self !! k)
  ∧ ((∀ c, resource_class encoder = Some c → k ≠ Class c) →
     _resource_class_to_includer (add_type self encoder includer).1 !! k
     = _resource_class_to_includer self !! k).
Proof.
  unfold add_type.
  destruct (resource_class encoder) as [c|], (typename encoder) as [t|];
    simpl; try done.
  destruct (encoder_init_api encoder (api_id self)); simpl; [|done].
  destruct includer as [inc|]; simpl; [|done].
  destruct (Includer_init_api inc (api_id self)); simpl; [|done].
  split; [intros Hk; by rewrite lookup_insert_ne
         |intros Hk; rewrite lookup_insert_ne; [done|];
          intros <-; by apply (Hk c)].
Qed.

(** [add_type] leaves every other lookup alone: for an object that is
    neither the encoder's typename nor its resource class nor an instance of
    that class, [get_encoder] and [get_includer] answer after the call as
    they did before, whatever the call's outcome. *)
Theorem add_type_keeps_other_lookups {D} (self : API) (encoder : Encoder)
    (includer : option Includer) (o : pyobj) (default : option D) :
  o ≠ typename_key (typename encoder) →
  (∀ c, resource_class encoder = Some c → o ≠ Class c ∧ type_of o ≠ c) →
  get_encoder (add_type self encoder includer).1 o default
  = get_encoder self o default
  ∧ get_includer (add_type self encoder includer).1 o default
    = get_includer self o default.
Proof.
  intros Hname Hclass.
  assert (Ho : ∀ c, resource_class encoder = Some c → o ≠ Class c)
    by (intros c Hc; by apply (Hclass c)).
  assert (Hty : ∀ c, resource_class encoder = Some c → Class (type_of o) ≠ Class c).
  { intros c Hc [= Heq]. by apply (Hclass c Hc). }
  unfold get_encoder, get_includer, registry_get.
  destruct (add_type_encoder_keys self encoder includer o) as [He1 He2].
  destruct (add_type_encoder_keys self encoder includer (Class (type_of o)))
    as [_ He3].
  destruct (add_type_includer_keys self encoder includer o) as [Hi1 Hi2].
  destruct (add_type_includer_keys self encoder includer (Class (type_of o)))
    as [_ Hi3].
  by rewrite (He1 Hname), (He2 Ho), (He3 Hty), (Hi1 Hname), (Hi2 Ho), (Hi3 Hty).
Qed.

(** Registering a second encoder under a typename replaces the first for
    the typename, but not for the first encoder's resource class: that class
    still leads to the first encoder. *)
Theorem add_type_again_overwrites_typename_only (self : API)
    (first second : Encoder) (t : string) (c1 c2 : cls) :
  registry_wf self →
  typename first = Some t → resource_class first = Some c1 →
  typename second = Some t → resource_class second = Some c2 →
  c1 ≠ c2 →
  encoder_init_api first (api_id self) = Return () →
  encoder_init_api second (api_id self) = Return () →
  let self' := (add_type (add_type self first None).1 second None).1 in
  get_encoder self' (PyStr t) (@None Empty_set) = Return (inl second)
  ∧ get_encoder self' (Class c2) (@None Empty_set) = Return (inl second)
  ∧ get_encoder self' (Class c1) (@None Empty_set) = Return (inl first).
Proof.
  intros (He & _) Ht1 Hc1 Ht2 Hc2 Hne Hi1 Hi2 self'. subst self'.
  rewrite (add_type_encoder_only self first t c1) by done. simpl.
  rewrite (add_type_encoder_only _ second t c2) by done.
  unfold get_encoder, registry_get; simpl.
  assert (Hnone : ∀ c, _encoder self !! Class c = None).
  { intros c. destruct (_encoder self !! Class c) eqn:Hk; [|done].
    destruct (He (Class c)) as [? ?]; [by eexists|done]. }
  split; [by rewrite lookup_insert_eq|]. split.
  - rewrite !lookup_insert_ne, Hnone by done. by rewrite lookup_insert_eq.
  - rewrite !lookup_insert_ne, Hnone by done.
    rewrite lookup_insert_ne by congruence. by rewrite lookup_insert_eq.
Qed.

(** An includer that is already bound to another API stops [add_type] with
    an [AssertionError] after the encoder has been stored: the encoder is
    registered, the includer is not. *)
Theorem add_type_foreign_includer (self : API) (encoder : Encoder)
    (includer : Includer) (t : string) (c : cls) (other : nat) :
  typename encoder = Some t → resource_class encoder = Some c →
  encoder_init_api encoder (api_id self) = Return () →
  includer_api includer = Some other → other ≠ api_id self →
  (add_type self encoder (Some includer)).2 = (Raise AssertionError, [])
  ∧ get_encoder (add_type self encoder (Some includer)).1 (PyStr t)
      (@None Empty_set) = Return (inl encoder)
  ∧ _includer (add_type self encoder (Some includer)).1 = _includer self
  ∧ _resource_class_to_includer (add_type self encoder (Some includer)).1
    = _resource_class_to_includer self.
Proof.
  intros Ht Hc Hinit Hbound Hother. unfold add_type.
  rewrite Ht, Hc, Hinit. simpl. unfold Includer_init_api.
  rewrite bool_decide_eq_false_2.
  2:{ rewrite Hbound. intros [?|[= ?]]; done. }
  simpl. repeat split.
  unfold get_encoder, registry_get; simpl. by rewrite lookup_insert_eq.
Qed.

(** Registration round trip for the includer.  [add_type] with an includer
    that is unbound, or bound to this API, stores it bound to this API and
    with its relationships unchanged; [get_includer] gives it back for the
    typename, the resource class and every instance of the class. *)
Theorem add_type_then_get_includer {D} (self : API) (encoder : Encoder)
    (includer : Includer) (t : string) (n : nat) (default : option D) :
  registry_wf self →
  typename encoder = Some t →
  resource_class encoder = Some (UserClass n) →
  encoder_init_api encoder (api_id self) = Return () →
  includer_api includer = None ∨ includer_api includer = Some (api_id self) →
  let self' := (add_type self encoder (Some includer)).1 in
  let bound := {| includer_api := Some (api_id self);
                  _relationships := _relationships includer |} in
  (add_type self encoder (Some includer)).2 = (Return (), [])
  ∧ get_includer self' (PyStr t) default = Return (inl bound)
  ∧ get_includer self' (Class (UserClass n)) default = Return (inl bound)
  ∧ ∀ oid, get_includer self' (Instance n oid) default = Return (inl bound).
Proof.
  intros (_ & _ & Hi & Hci) Ht Hc Hinit Hbound self' bound.
  subst self' bound. unfold add_type. rewrite Ht, Hc, Hinit. simpl.
  unfold Includer_init_api. rewrite bool_decide_eq_true_2 by done. simpl.
  unfold get_includer, registry_get; simpl.
  split; [done|]. split; [|split].
  - by rewrite lookup_insert_eq.
  - rewrite lookup_insert_ne by done.
    destruct (_includer self !! Class (UserClass n)) eqn:Hk.
    { destruct (Hi (Class (UserClass n))) as [? ?]; [by eexists|done]. }
    by rewrite lookup_insert_eq.
  - intros oid. rewrite !lookup_insert_ne by done.
    destruct (_includer self !! Instance n oid) eqn:Hk.
    { destruct (Hi (Instance n oid)) as [? ?]; [by eexists|done]. }
    destruct (_resource_class_to_includer self !! Instance n oid) eqn:Hk'.
    { destruct (Hci (Instance n oid)) as [? ?]; [by eexists|done]. }
    simpl. by rewrite lookup_insert_eq.
Qed.


End RegistrationFrame.

(** ** Identifiers and uris *)

Section Identifiers.
Context `{Collaborators}.

Lemma append_assoc (a b c : string) : (a +:+ b) +:+ c = a +:+ (b +:+ c).
Proof.
  induction a as [|x a IH]; [done|].
  change (String x ((a +:+ b) +:+ c) = String x (a +:+ (b +:+ c))).
  by f_equal.
Qed.

(** A pair and a document with the same [type] and [id] normalise alike, on
    every API (the registry is not asked): both functions stringify the two
    values, other keys of the document are ignored. *)
Theorem identifier_of_pair_and_document (self : API) (t i : scalar)
    (document : gmap string scalar) :
  document !! "type" = Some t →
  document !! "id" = Some i →
  let tuple := {| tuple_type := SStr (str t); tuple_id := SStr (str i) |} in
  let object : gmap string scalar :=
    {[ "type" := SStr (str t); "id" := SStr (str i) ]} in
  ensure_identifier self (RefTuple [t; i]) = Return tuple
  ∧ ensure_identifier self (RefDict document) = Return tuple
  ∧ ensure_identifier_object self (RefTuple [t; i]) = Return (Some object)
  ∧ ensure_identifier_object self (RefDict document) = Return (Some object).
Proof. intros Ht Hi. simpl. by rewrite Ht, Hi. Qed.

(** The two normalisers agree wherever [ensure_identifier] returns, except
    on [None]: the identifier document has the type and id of the tuple. *)
Theorem ensure_identifier_object_agrees (self : API) (obj : reference)
    (tuple : jsonapi_id_tuple) :
  obj ≠ RefObject PyNone →
  ensure_identifier self obj = Return tuple →
  ensure_identifier_object self obj
  = Return (Some {[ "type" := tuple_type tuple; "id" := tuple_id tuple ]}).
Proof.
  intros Hnone. destruct obj as [items|document|o]; simpl.
  - destruct items as [|t [|i [|? ?]]]; try done. by intros [= <-].
  - destruct (document !! "type"), (document !! "id"); try done.
    by intros [= <-].
  - intros Hid.
    transitivity
      (encoder ← found (get_encoder self o (@None Empty_set));
       i ← encoder_id encoder o;
       Return (Some ({[ "type" := from_option SStr SNone (typename encoder);
                        "id" := i ]} : gmap string scalar))
       : Py.result Error (option (gmap string scalar))).
    { by destruct o as [[]| |]. }
    destruct (found (get_encoder self o None)) as [encoder|]; [|done].
    simpl in *. destruct (encoder_id encoder o); [|done].
    simpl in *. by injection Hid as <-.
Qed.

(** On tuples that are not pairs the two normalisers part: [ensure_identifier]
    raises [AssertionError]; [ensure_identifier_object] raises [IndexError]
    on fewer than two items and reads the first two of a longer tuple. *)
Theorem identifier_of_odd_tuple (self : API) (items : list scalar) :
  (length items ≠ 2%nat →
   ensure_identifier self (RefTuple items) = Raise AssertionError)
  ∧ ((length items < 2)%nat →
     ensure_identifier_object self (RefTuple items) = Raise IndexError)
  ∧ (∀ t i more, items = t :: i :: more →
     ensure_identifier_object self (RefTuple items)
     = Return (Some {[ "type" := SStr (str t); "id" := SStr (str i) ]})).
Proof.
  split; [|split].
  - destruct items as [|t [|i [|? ?]]]; simpl; done.
  - destruct items as [|t [|i ?]]; simpl; [done|done|lia].
  - by intros t i more ->.
Qed.

(** The uris nest: when [resource_uri] returns, it is the collection uri
    followed by a slash and the id, and the relationship and related uris
    for a relationship name are the resource uri followed by
    [/relationships/name] and [/name]. *)
Theorem uris_nest (self : API) (resource : pyobj) (u : string) :
  resource_uri self resource = Return u →
  ∃ c i, collection_uri self resource = Return c
         ∧ u = c +:+ "/" +:+ i
         ∧ ∀ relname,
             relationship_uri self resource (SStr relname)
             = Return (u +:+ "/relationships/" +:+ relname)
             ∧ related_uri self resource (SStr relname)
               = Return (u +:+ "/" +:+ relname).
Proof.
  unfold resource_uri, collection_uri, relationship_uri, related_uri.
  destruct (found (get_encoder self resource None)) as [encoder|]; [|done].
  simpl. unfold typename_of.
  destruct (typename encoder) as [t|]; [|done]. simpl.
  destruct (encoder_id encoder resource) as [[|i|]|]; try done. simpl.
  intros [= <-]. exists ((_uri self +:+ "/") +:+ t), i.
  split; [done|]. split; [by rewrite !append_assoc|].
  intros relname. by rewrite !append_assoc.
Qed.

End Identifiers.

(** ** More on include paths *)

Section IncludePathsMore.
Context `{Collaborators}.

Implicit Types (h : gmap nat API) (self : Includer).

(** [paths_exist] is the conjunction of [path_exists] over the paths, and it
    stops at the first path that does not exist: the paths after it are not
    looked at. *)
Theorem paths_exist_all h self (paths : list (list string)) :
  (outcome (paths_exist h self paths) = Return true
   ↔ Forall (λ p, outcome (path_exists h self p) = Return true) paths)
  ∧ (∀ before p after,
       paths = (before ++ p :: after)%list →
       Forall (λ p', outcome (path_exists h self p') = Return true) before →
       outcome (path_exists h self p) = Return false →
       outcome (paths_exist h self paths) = Return false).
Proof.
  split.
  - induction paths as [|p ps IH]; simpl.
    { split; [constructor|done]. }
    rewrite Forall_cons. rewrite <- IH. unfold outcome.
    destruct (path_exists h self p) as [[[]|e] log];
      destruct (paths_exist h self ps) as [r log']; simpl; naive_solver.
  - intros before p after -> Hbefore Hp.
    induction Hbefore as [|p' before Hp' _ IH]; simpl; unfold outcome in *.
    + by destruct (path_exists h self p) as [[[]|e] log].
    + destruct (path_exists h self p') as [[[]|e] log]; try done.
      by destruct (paths_exist h self (before ++ p :: after)).
Qed.

(** Include paths are closed under prefixes: if [path_exists] says yes to a
    path, it says yes to every path that it starts with. *)
Theorem path_exists_prefix h self (p q : list string) :
  outcome (path_exists h self (p ++ q)) = Return true →
  outcome (path_exists h self p) = Return true.
Proof.
  revert self. induction p as [|name p IH]; intros self; [done|].
  simpl.
  destruct (_relationships self !! name) as [relationship|]; [|done].
  destruct (remote_types relationship) as [declared|]; [|done].
  rewrite !all_remote_types_true. intros Hall.
  eapply Forall_impl; [exact Hall|].
  intros t (a & inc & Ha & Hf & Hx). exists a, inc. eauto.
Qed.

(** [init_api] binds once: after it has returned, the includer is bound to
    that API with its relationships unchanged, binding it again to the same
    API changes nothing, and binding it to another API raises
    [AssertionError]. *)
Theorem init_api_binds_once self (a : nat) (bound : Includer) :
  Includer_init_api self a = Return bound →
  includer_api bound = Some a
  ∧ _relationships bound = _relationships self
  ∧ Includer_init_api bound a = Return bound
  ∧ ∀ b, b ≠ a → Includer_init_api bound b = Raise AssertionError.
Proof.
  unfold Includer_init_api. case_bool_decide; [|done]. intros [= <-]. simpl.
  repeat split.
  - by rewrite bool_decide_eq_true_2 by (by right).
  - intros b Hb. rewrite bool_decide_eq_false_2; [done|].
    intros [?|[= ?]]; done.
Qed.

End IncludePathsMore.

(** ** More on fetching *)

Section FetchingMore.
Context `{Collaborators}.

Implicit Types (self : Includer) (resources : list pyobj)
  (request : Request) (related : gset pyobj).

(** The to-many loop, when every accessor call returns a collection. *)
Lemma update_each_collections (relationship : Relationship) request
    (items : pyobj → list pyobj) resources related :
  Forall (λ r, get relationship r request = Return (Collection (items r)))
    resources →
  ∃ fetched,
    update_each relationship request resources related = Return fetched
    ∧ ∀ x, x ∈ fetched ↔ x ∈ related ∨ ∃ r, r ∈ resources ∧ x ∈ items r.
Proof.
  revert related.
  induction resources as [|r rs IH]; intros related Hall; simpl.
  - exists related. split; [done|]. intros x. split; [by left|].
    intros [?|(r & Hr & _)]; [done|]. by apply elem_of_nil in Hr.
  - apply Forall_cons in Hall as [Hr Hrs]. rewrite Hr.
    destruct (IH (list_to_set (items r) ∪ related) Hrs) as (fetched & -> & Hx).
    exists fetched. split; [done|]. intros x. rewrite Hx.
    rewrite elem_of_union, elem_of_list_to_set. split.
    + intros [[?|?]|(r' & Hr' & ?)]; [right; exists r|by left|right; exists r'];
        split; try done; [by left|by right].
    + intros [?|(r' & Hr' & ?)]; [by left; right|].
      apply elem_of_cons in Hr' as [->|?]; [by left; left|].
      right. by exists r'.
Qed.

(** A to-many relationship fetches the union of the accessor's collections:
    an object is in the result exactly when it is in the collection of one
    of the input resources.  Nothing is taken out, so a [None] inside a
    collection stays in the result. *)
Theorem fetch_path_to_many_union self resources (name : string)
    (rest : list string) request (relationship : Relationship)
    (items : pyobj → list pyobj) :
  _relationships self !! name = Some relationship →
  to_one relationship = false →
  Forall (λ r, get relationship r request = Return (Collection (items r)))
    resources →
  ∃ related,
    fetch_path self resources (name :: rest) request = Return related
    ∧ ∀ x, x ∈ related ↔ ∃ r, r ∈ resources ∧ x ∈ items r.
Proof.
  intros Hname Hmany Hall. unfold fetch_path. rewrite Hname, Hmany.
  destruct (update_each_collections relationship request items resources ∅ Hall)
    as (fetched & -> & Hx).
  exists fetched. split; [done|]. intros x. rewrite Hx. set_solver.
Qed.

(** The accumulating loop of [fetch_paths]. *)
Lemma fetch_paths_from_union self resources (paths : list (list string))
    request (sets : list string → gset pyobj) related :
  Forall (λ p, fetch_path self resources p request = Return (sets p)) paths →
  ∃ fetched,
    fetch_paths_from self resources paths request related = Return fetched
    ∧ ∀ x, x ∈ fetched ↔ x ∈ related ∨ ∃ p, p ∈ paths ∧ x ∈ sets p.
Proof.
  revert related.
  induction paths as [|p ps IH]; intros related Hall; simpl.
  - exists related. split; [done|]. intros x. split; [by left|].
    intros [?|(p & Hp & _)]; [done|]. by apply elem_of_nil in Hp.
  - apply Forall_cons in Hall as [Hp Hps]. rewrite Hp. simpl.
    destruct (IH (sets p ∪ related) Hps) as (fetched & -> & Hx).
    exists fetched. split; [done|]. intros x. rewrite Hx.
    rewrite elem_of_union. split.
    + intros [[?|?]|(p' & Hp' & ?)]; [right; exists p|by left|right; exists p'];
        split; try done; [by left|by right].
    + intros [?|(p' & Hp' & ?)]; [by left; right|].
      apply elem_of_cons in Hp' as [->|?]; [by left; left|].
      right. by exists p'.
Qed.

(** [fetch_paths] is the union of [fetch_path] over the paths when each of
    them returns (the empty set for no paths), and it raises what the first
    failing path raises. *)
Theorem fetch_paths_union self resources (paths : list (list string)) request :
  (∀ sets : list string → gset pyobj,
     Forall (λ p, fetch_path self resources p request = Return (sets p)) paths →
     ∃ related,
       fetch_paths self resources paths request = Return related
       ∧ ∀ x, x ∈ related ↔ ∃ p, p ∈ paths ∧ x ∈ sets p)
  ∧ (∀ before p after e,
       paths = (before ++ p :: after)%list →
       Forall (λ p', Py.returns (fetch_path self resources p' request) = true)
         before →
       fetch_path self resources p request = Raise e →
       fetch_paths self resources paths request = Raise e).
Proof.
  split.
  - intros sets Hall. unfold fetch_paths.
    destruct (fetch_paths_from_union self resources paths request sets ∅ Hall)
      as (fetched & -> & Hx).
    exists fetched. split; [done|]. intros x. rewrite Hx. set_solver.
  - intros before p after e -> Hbefore Hp. unfold fetch_paths.
    generalize (∅ : gset pyobj).
    induction Hbefore as [|p' before Hp' _ IH]; intros related; simpl.
    + by rewrite Hp.
    + destruct (fetch_path self resources p' request); [|done]. simpl.
      apply IH.
Qed.

End FetchingMore.

(** ** Routing on any segments *)

Lemma cons_append (c : ascii) (a b : string) : String c a +:+ b = String c (a +:+ b).
Proof. reflexivity. Qed.

Lemma length_append (a b : string) :
  String.length (a +:+ b) = (String.length a + String.length b)%nat.
Proof. induction a as [|c a IH]; [done|]. rewrite cons_append. simpl. by rewrite IH. Qed.

Lemma substring_prefix (a b : string) :
  substring 0 (String.length a) (a +:+ b) = a.
Proof. induction a as [|c a IH]; simpl; [by destruct b|]. by rewrite IH. Qed.

Lemma consumed_append (a b : string) : Re.consumed (a +:+ b) b = a.
Proof.
  unfold Re.consumed. rewrite length_append.
  replace (String.length a + String.length b - String.length b)%nat with (String.length a) by lia.
  apply substring_prefix.
Qed.

Lemma segment_loop (k : string → Re.captures → option Re.captures)
    (rest : string) (seg : string) :
  gives_up k → segment_end rest → no_slash seg = true →
  ∀ (c : ascii) (fuel : nat) (caps : Re.captures),
  c ≠ "/"%char → (String.length seg < fuel)%nat →
  (fix iter (fuel : nat) (s : string) (caps : Re.captures) : option Re.captures :=
     match fuel with
     | O => None
     | S fuel' =>
         Re.run (Re.NotChar "/") s caps (λ s' caps',
           match k s' caps' with
           | Some m => Some m
           | None => iter fuel' s' caps'
           end)
     end) fuel (String c (seg +:+ rest)) caps
  = k rest caps.
Proof.
  intros Hk Hrest. induction seg as [|c' seg IH]; intros Hseg c fuel caps Hc Hfuel.
  - destruct fuel as [|fuel]; [simpl in Hfuel; lia|]. cbn [Re.run].
    rewrite (proj2 (Ascii.eqb_neq "/" c)) by congruence.
    change ("" +:+ rest) with rest.
    destruct (k rest caps) as [m|] eqn:Hkr; [done|].
    destruct fuel as [|fuel]; [done|].
    destruct Hrest as [->|[r ->]]; cbn [Re.run]; [done|].
    by rewrite Ascii.eqb_refl.
  - destruct fuel as [|fuel]; [simpl in Hfuel; lia|].
    simpl in Hseg. apply andb_true_iff in Hseg as [Hc' Hseg].
    apply negb_true_iff, Ascii.eqb_neq in Hc'.
    cbn [Re.run]. rewrite (proj2 (Ascii.eqb_neq "/" c)) by congruence.
    rewrite cons_append. rewrite (Hk c') by congruence.
    apply IH; [done|congruence|simpl in Hfuel; lia].
Qed.

Lemma run_segment (name : string) (seg rest : string) (caps : Re.captures)
    (k : string → Re.captures → option Re.captures) :
  is_segment seg = true → segment_end rest → gives_up k →
  Re.run (segment name) (seg +:+ rest) caps k = k rest (<[name := seg]> caps).
Proof.
  intros Hseg Hrest Hk. destruct seg as [|c seg]; [done|].
  simpl in Hseg. apply andb_true_iff in Hseg as [Hc Hseg].
  apply negb_true_iff, Ascii.eqb_neq in Hc.
  rewrite cons_append.
  pose (k' := λ (s' : string) (caps' : Re.captures),
          k s' (<[name := Re.consumed (String c (seg +:+ rest)) s']> caps')).
  transitivity (k' rest caps).
  - assert (Hk' : gives_up k') by (intros c' s caps' Hc'; by apply Hk).
    assert (Hlen : (String.length seg
                    < S (String.length (String c (seg +:+ rest))))%nat)
      by (simpl; rewrite length_append; lia).
    exact (segment_loop k' rest seg Hk' Hrest Hseg c _ caps Hc Hlen).
  - subst k'. cbv beta. by rewrite <- cons_append, consumed_append.
Qed.

Lemma fullmatch_run (r : Re.regex) (s : string) :
  Re.fullmatch r s = Re.groupdict r <$> Re.run r s ∅ at_end.
Proof. reflexivity. Qed.

Lemma run_seq_literal (b : string) (rs : list Re.regex) (s : string)
    (caps : Re.captures) (k : string → Re.captures → option Re.captures) :
  Re.run (Re.seq (literal b :: rs)) (b +:+ s) caps k
  = Re.run (Re.seq rs) s caps k.
Proof. cbn [Re.seq foldr Re.run]. unfold literal. by rewrite run_escape. Qed.

Lemma gives_up_literal (l : string) (rs : list Re.regex)
    (k : string → Re.captures → option Re.captures) :
  gives_up (λ s caps, Re.run (Re.seq (literal (String "/" l) :: rs)) s caps k).
Proof.
  intros c s caps Hc. cbn [Re.seq foldr Re.run literal Re.escape].
  by rewrite (proj2 (Ascii.eqb_neq "/" c)) by congruence.
Qed.

Lemma run_slash_end (s : string) (caps : Re.captures) :
  Re.run (Re.seq [slash_end]) s caps at_end
  = match s with
    | EmptyString | String "/" EmptyString => Some caps
    | _ => None
    end.
Proof.
  cbn [Re.seq foldr slash_end Re.run].
  destruct s as [|c s]; [done|].
  destruct (Ascii.eqb_spec "/" c) as [<-|Hc].
  - destruct s as [|c' s]; [done|]. simpl.
    by destruct c' as [[] [] [] [] [] [] [] []], s.
  - by destruct c as [[] [] [] [] [] [] [] []], s.
Qed.

Lemma gives_up_slash_end :
  gives_up (λ s caps, Re.run (Re.seq [slash_end]) s caps at_end).
Proof.
  intros c s caps Hc. rewrite run_slash_end.
  by destruct c as [[] [] [] [] [] [] [] []], s.
Qed.

Lemma run_seq_segment (name : string) (rs : list Re.regex) (seg rest : string)
    (caps : Re.captures) (k : string → Re.captures → option Re.captures) :
  is_segment seg = true → segment_end rest →
  gives_up (λ s c, Re.run (Re.seq rs) s c k) →
  Re.run (Re.seq (segment name :: rs)) (seg +:+ rest) caps k
  = Re.run (Re.seq rs) rest (<[name := seg]> caps) k.
Proof.
  intros Hseg Hrest Hk.
  change (Re.run (Re.seq (segment name :: rs)) (seg +:+ rest) caps k)
    with (Re.run (segment name) (seg +:+ rest) caps
            (λ s c, Re.run (Re.seq rs) s c k)).
  by rewrite run_segment.
Qed.

Lemma segment_end_slash (x : string) : segment_end ("/" +:+ x).
Proof. right. by exists x. Qed.

Lemma segment_end_trail (trail : string) :
  trail = "" ∨ trail = "/" → segment_end trail.
Proof. intros [-> | ->]; [by left|right; by exists ""]. Qed.

Lemma slash_end_trail (trail : string) (caps : Re.captures) :
  trail = "" ∨ trail = "/" →
  Re.run (Re.seq [slash_end]) trail caps at_end = Some caps.
Proof. rewrite run_slash_end. by intros [-> | ->]. Qed.

Lemma slash_end_more (seg x : string) (caps : Re.captures) :
  is_segment seg = true →
  Re.run (Re.seq [slash_end]) ("/" +:+ seg +:+ x) caps at_end = None.
Proof. rewrite run_slash_end. by destruct seg. Qed.

(** A text without a slash, followed by a slash: the place of the first
    slash is determined. *)
Lemma first_slash (a b x y : string) :
  no_slash a = true → no_slash b = true →
  a +:+ String "/" x = b +:+ String "/" y → a = b ∧ x = y.
Proof.
  revert b. induction a as [|c a IH]; intros [|d b] Ha Hb Heq.
  - by injection Heq as ->.
  - rewrite cons_append in Heq. injection Heq as <- _. done.
  - rewrite cons_append in Heq. injection Heq as -> _. done.
  - rewrite !cons_append in Heq. injection Heq as -> Heq.
    simpl in Ha, Hb. apply andb_true_iff in Ha as [_ Ha].
    apply andb_true_iff in Hb as [_ Hb].
    destruct (IH b Ha Hb Heq) as [-> ->]. done.
Qed.

Lemma no_slash_before_slash (a x : string) : no_slash (a +:+ String "/" x) = false.
Proof.
  induction a as [|c a IH]; [done|]. rewrite cons_append. simpl.
  rewrite IH. by destruct (negb _).
Qed.

Lemma append_empty (a : string) : a +:+ "" = a.
Proof. induction a as [|c a IH]; [done|]. rewrite cons_append. by rewrite IH. Qed.

Lemma run_escape_inv (b s : string) (caps m : Re.captures)
    (k : string → Re.captures → option Re.captures) :
  Re.run (Re.escape b) s caps k = Some m →
  ∃ s', s = b +:+ s' ∧ k s' caps = Some m.
Proof.
  revert s k. induction b as [|c b IH]; intros s k; simpl.
  - intros Hk. by exists s.
  - destruct s as [|c' s]; [done|].
    destruct (Ascii.eqb_spec c c') as [<-|_]; [|done].
    intros Hrun. destruct (IH _ _ Hrun) as (s' & -> & Hk). by exists s'.
Qed.

(** The relationship pattern does not match a related path. *)
Lemma relationship_tail_mismatch (rel trail : string) (caps : Re.captures) :
  is_segment rel = true → trail = "" ∨ trail = "/" →
  Re.run (Re.seq [literal "/relationships/"; segment "relname"; slash_end])
    ("/" +:+ rel +:+ trail) caps at_end = None.
Proof.
  intros Hrel Htrail.
  destruct (Re.run _ _ caps at_end) as [m|] eqn:Hrun; [exfalso|done].
  cbn [Re.seq foldr Re.run literal] in Hrun.
  apply run_escape_inv in Hrun as (s' & Heq & Hrun).
  assert (Hno : no_slash rel = true) by (by destruct rel).
  injection Heq as Heq.
  change (rel +:+ trail = "relationships" +:+ String "/" s') in Heq.
  destruct Htrail as [-> | ->].
  - rewrite append_empty in Heq. rewrite Heq, no_slash_before_slash in Hno. done.
  - apply first_slash in Heq as [_ <-]; [|done..].
    vm_compute in Hrun. done.
Qed.

Ltac walk :=
  repeat first
    [ rewrite run_seq_literal
    | rewrite run_seq_segment;
        [ | assumption
          | first [by apply segment_end_trail | right; eexists; reflexivity]
          | first [apply gives_up_literal | apply gives_up_slash_end] ] ].

Ltac read_groups :=
  unfold Re.groupdict;
  cbn [Re.group_names Re.seq foldr segment literal Re.escape slash_end app fmap
       option_fmap option_map];
  rewrite ?lookup_insert_eq, ?lookup_insert_ne by done;
  rewrite ?lookup_insert_eq, ?lookup_insert_ne by done;
  rewrite ?lookup_insert_eq, ?lookup_insert_ne by done.

Section Tails.
Context (ty id rel trail : string).
Context (Hty : is_segment ty = true) (Hid : is_segment id = true)
  (Hrel : is_segment rel = true) (Htrail : trail = "" ∨ trail = "/").

Lemma collection_matches :
  Re.fullmatch (Re.seq [literal "/"; segment "type"; slash_end])
    ("/" +:+ ty +:+ trail)
  = Some {[ "type" := SStr ty ]}.
Proof.
  rewrite fullmatch_run. walk. rewrite slash_end_trail by done.
  read_groups. done.
Qed.

Lemma collection_rejects_longer (x : string) :
  Re.fullmatch (Re.seq [literal "/"; segment "type"; slash_end])
    ("/" +:+ ty +:+ "/" +:+ id +:+ x)
  = None.
Proof. rewrite fullmatch_run. walk. by rewrite slash_end_more. Qed.

Lemma resource_matches :
  Re.fullmatch
    (Re.seq [literal "/"; segment "type"; literal "/"; segment "id"; slash_end])
    ("/" +:+ ty +:+ "/" +:+ id +:+ trail)
  = Some {[ "type" := SStr ty; "id" := SStr id ]}.
Proof.
  rewrite fullmatch_run. walk. rewrite slash_end_trail by done.
  read_groups. done.
Qed.

Lemma resource_rejects_longer (seg x : string) :
  is_segment seg = true →
  Re.fullmatch
    (Re.seq [literal "/"; segment "type"; literal "/"; segment "id"; slash_end])
    ("/" +:+ ty +:+ "/" +:+ id +:+ "/" +:+ seg +:+ x)
  = None.
Proof. intros Hseg. rewrite fullmatch_run. walk. by rewrite slash_end_more. Qed.

Lemma relationship_matches :
  Re.fullmatch
    (Re.seq [literal "/"; segment "type"; literal "/"; segment "id";
             literal "/relationships/"; segment "relname"; slash_end])
    ("/" +:+ ty +:+ "/" +:+ id +:+ "/relationships/" +:+ rel +:+ trail)
  = Some {[ "type" := SStr ty; "id" := SStr id; "relname" := SStr rel ]}.
Proof.
  rewrite fullmatch_run. walk. rewrite slash_end_trail by done.
  read_groups. done.
Qed.

Lemma relationship_rejects_related :
  Re.fullmatch
    (Re.seq [literal "/"; segment "type"; literal "/"; segment "id";
             literal "/relationships/"; segment "relname"; slash_end])
    ("/" +:+ ty +:+ "/" +:+ id +:+ "/" +:+ rel +:+ trail)
  = None.
Proof.
  rewrite fullmatch_run. walk. by rewrite relationship_tail_mismatch.
Qed.

Lemma related_matches :
  Re.fullmatch
    (Re.seq [literal "/"; segment "type"; literal "/"; segment "id";
             literal "/"; segment "relname"; slash_end])
    ("/" +:+ ty +:+ "/" +:+ id +:+ "/" +:+ rel +:+ trail)
  = Some {[ "type" := SStr ty; "id" := SStr id; "relname" := SStr rel ]}.
Proof.
  rewrite fullmatch_run. walk. rewrite slash_end_trail by done.
  read_groups. done.
Qed.

End Tails.

Ltac open_get_handler self Hroutes :=
  unfold resolves_to, _get_handler; rewrite Hroutes;
  cbn [custom_route path set_path];
  unfold collection_re, resource_re, relationship_re, related_re;
  rewrite !(fullmatch_behind_escape (_uri self)).

Section RoutingSegments.
Context `{Collaborators}.
Context (self : API) (request : Request) (Hroutes : _routes self = []).
Context (ty id rel trail : string).
Context (Hty : is_segment ty = true) (Hid : is_segment id = true)
  (Hrel : is_segment rel = true) (Htrail : trail = "" ∨ trail = "/").

Lemma resolve_collection :
  resolves_to self (set_path request (_uri self +:+ "/" +:+ ty +:+ trail))
    [SStr ty; SStr "collection"] {[ "type" := SStr ty ]}.
Proof.
  open_get_handler self Hroutes. rewrite collection_matches by done.
  unfold Re.group. by simplify_map_eq.
Qed.

Lemma resolve_resource :
  resolves_to self
    (set_path request (_uri self +:+ "/" +:+ ty +:+ "/" +:+ id +:+ trail))
    [SStr ty; SStr "resource"] {[ "type" := SStr ty; "id" := SStr id ]}.
Proof.
  open_get_handler self Hroutes.
  rewrite collection_rejects_longer, resource_matches by done.
  unfold Re.group. by simplify_map_eq.
Qed.

Lemma resolve_relationship :
  resolves_to self
    (set_path request
       (_uri self +:+ "/" +:+ ty +:+ "/" +:+ id +:+ "/relationships/" +:+ rel
        +:+ trail))
    [SStr ty; SStr "relationship"; SStr rel]
    {[ "type" := SStr ty; "id" := SStr id; "relname" := SStr rel ]}.
Proof.
  open_get_handler self Hroutes.
  rewrite collection_rejects_longer by done.
  change ("/relationships/" +:+ rel +:+ trail)
    with ("/" +:+ "relationships" +:+ "/" +:+ rel +:+ trail) at 1.
  rewrite resource_rejects_longer by done.
  rewrite relationship_matches by done.
  unfold Re.group. by simplify_map_eq.
Qed.

Lemma resolve_related :
  resolves_to self
    (set_path request
       (_uri self +:+ "/" +:+ ty +:+ "/" +:+ id +:+ "/" +:+ rel +:+ trail))
    [SStr ty; SStr "related"; SStr rel]
    {[ "type" := SStr ty; "id" := SStr id; "relname" := SStr rel ]}.
Proof.
  open_get_handler self Hroutes.
  rewrite collection_rejects_longer, resource_rejects_longer by done.
  rewrite relationship_rejects_related, related_matches by done.
  unfold Re.group. by simplify_map_eq.
Qed.

End RoutingSegments.

Section RoutingGeneral.
Context `{Collaborators}.

(** The built-in patterns on any segments.  For an API without custom routes
    and segments [ty], [id], [rel] (not empty, no slash), with or without a
    trailing slash, the paths [B/ty], [B/ty/id], [B/ty/id/relationships/rel]
    and [B/ty/id/rel] behind the base uri [B] resolve to the handler-table
    keys of the Collection, Resource, Relationship and Related endpoints of
    [ty], and the segments are merged into the path parameters. *)
Theorem builtin_routes_for_segments (self : API) (request : Request)
    (ty id rel trail : string) :
  _routes self = [] →
  is_segment ty = true → is_segment id = true → is_segment rel = true →
  trail = "" ∨ trail = "/" →
  let behind_base p := set_path request (_uri self +:+ p) in
  resolves_to self (behind_base ("/" +:+ ty +:+ trail))
    [SStr ty; SStr "collection"] {[ "type" := SStr ty ]}
  ∧ resolves_to self (behind_base ("/" +:+ ty +:+ "/" +:+ id +:+ trail))
      [SStr ty; SStr "resource"] {[ "type" := SStr ty; "id" := SStr id ]}
  ∧ resolves_to self
      (behind_base
         ("/" +:+ ty +:+ "/" +:+ id +:+ "/relationships/" +:+ rel +:+ trail))
      [SStr ty; SStr "relationship"; SStr rel]
      {[ "type" := SStr ty; "id" := SStr id; "relname" := SStr rel ]}
  ∧ resolves_to self
      (behind_base ("/" +:+ ty +:+ "/" +:+ id +:+ "/" +:+ rel +:+ trail))
      [SStr ty; SStr "related"; SStr rel]
      {[ "type" := SStr ty; "id" := SStr id; "relname" := SStr rel ]}.
Proof.
  intros Hroutes Hty Hid Hrel Htrail behind_base. subst behind_base. cbv beta.
  split; [by apply resolve_collection|].
  split; [by apply resolve_resource|].
  split; [by apply resolve_relationship|by apply resolve_related].
Qed.

End RoutingGeneral.

Section RoutingMore.
Context `{Collaborators}.

Lemma fullmatch_needs_prefix (b : string) (rs : list Re.regex) (p : string)
    (m : Re.match_object) :
  Re.fullmatch (Re.seq (Re.escape b :: rs)) p = Some m → ∃ s, p = b +:+ s.
Proof.
  rewrite fullmatch_run. cbn [Re.seq foldr Re.run].
  destruct (Re.run (Re.escape b) p ∅ _) as [caps|] eqn:Hrun; [|done].
  intros _. apply run_escape_inv in Hrun as (s & -> & _). by exists s.
Qed.

(** Without custom routes, a request whose path does not begin with the
    stored base uri has no handler: none of the four built-in patterns
    matches, and the request is left as it was. *)
Theorem no_base_uri_no_builtin_route (self : API) (request : Request) :
  _routes self = [] →
  (∀ s, path request ≠ _uri self +:+ s) →
  _get_handler self request = (None, request).
Proof.
  intros Hroutes Hbase. unfold _get_handler. rewrite Hroutes.
  cbn [custom_route].
  unfold collection_re, resource_re, relationship_re, related_re.
  repeat match goal with
  | |- context [Re.fullmatch (Re.seq (Re.escape ?b :: ?rs)) ?p] =>
      let Hm := fresh "Hm" in
      destruct (Re.fullmatch (Re.seq (Re.escape b :: rs)) p) eqn:Hm;
        [apply fullmatch_needs_prefix in Hm as [s Hs]; by destruct (Hbase s)|]
  end.
  done.
Qed.

Lemma custom_route_first (before after : list (Re.regex * Handler))
    (rule : Re.regex) (handler : Handler) (request : Request)
    (m : Re.match_object) :
  Forall (λ entry, Re.fullmatch entry.1 (path request) = None) before →
  Re.fullmatch rule (path request) = Some m →
  custom_route (before ++ (rule, handler) :: after) request
  = Some (handler, update_uri_arguments request m).
Proof.
  intros Hbefore Hrule.
  induction Hbefore as [|[r hd] before Hr _ IH]; simpl.
  - by rewrite Hrule.
  - simpl in Hr. by rewrite Hr.
Qed.

(** Custom routes are tried in registration order and before the built-in
    patterns: the first rule that matches the whole path gives the handler,
    and its named groups are merged into the path parameters, whatever the
    later rules and the built-in patterns would match. *)
Theorem custom_route_first_match_wins (self : API) (request : Request)
    (before after : list (Re.regex * Handler)) (rule : Re.regex)
    (handler : Handler) (m : Re.match_object) :
  _routes self = (before ++ (rule, handler) :: after)%list →
  Forall (λ entry, Re.fullmatch entry.1 (path request) = None) before →
  Re.fullmatch rule (path request) = Some m →
  _get_handler self request = (Some handler, update_uri_arguments request m).
Proof.
  intros Hroutes Hbefore Hrule. unfold _get_handler.
  by rewrite Hroutes, (custom_route_first _ _ _ _ _ m).
Qed.

(** The uris the API builds route back.  For a resource whose encoder has
    the typename [ty] and gives the id [id], both segments, and a
    relationship name [rel] that is a segment, the four uri builders return,
    and on an API without custom routes a request for each uri resolves to
    the endpoint it names: Collection, Resource, Relationship of [rel],
    Related of [rel], with [ty], [id] and [rel] as path parameters. *)
Theorem uris_route_back (self : API) (request : Request) (resource : pyobj)
    (encoder : Encoder) (ty id rel : string) :
  _routes self = [] →
  found (get_encoder self resource None) = Return encoder →
  typename encoder = Some ty →
  encoder_id encoder resource = Return (SStr id) →
  is_segment ty = true → is_segment id = true → is_segment rel = true →
  ∃ c r rs rd,
    collection_uri self resource = Return c
    ∧ resource_uri self resource = Return r
    ∧ relationship_uri self resource (SStr rel) = Return rs
    ∧ related_uri self resource (SStr rel) = Return rd
    ∧ resolves_to self (set_path request c)
        [SStr ty; SStr "collection"] {[ "type" := SStr ty ]}
    ∧ resolves_to self (set_path request r)
        [SStr ty; SStr "resource"] {[ "type" := SStr ty; "id" := SStr id ]}
    ∧ resolves_to self (set_path request rs)
        [SStr ty; SStr "relationship"; SStr rel]
        {[ "type" := SStr ty; "id" := SStr id; "relname" := SStr rel ]}
    ∧ resolves_to self (set_path request rd)
        [SStr ty; SStr "related"; SStr rel]
        {[ "type" := SStr ty; "id" := SStr id; "relname" := SStr rel ]}.
Proof.
  intros Hroutes Henc Hty Hi Sty Sid Srel.
  unfold collection_uri, resource_uri, relationship_uri, related_uri.
  rewrite Henc. simpl. unfold typename_of. rewrite Hty, Hi. simpl.
  do 4 eexists. repeat split; try reflexivity.
  - rewrite append_assoc.
    pose proof (resolve_collection self request Hroutes ty "" Sty
                  (or_introl eq_refl)) as Hres.
    by rewrite append_empty in Hres.
  - rewrite !append_assoc.
    pose proof (resolve_resource self request Hroutes ty id "" Sty Sid
                  (or_introl eq_refl)) as Hres.
    by rewrite append_empty in Hres.
  - pose proof (resolve_relationship self request Hroutes ty id rel "" Sty Sid
                  Srel (or_introl eq_refl)) as Hres.
    by rewrite append_empty in Hres.
  - pose proof (resolve_related self request Hroutes ty id rel "" Sty Sid Srel
                  (or_introl eq_refl)) as Hres.
    by rewrite append_empty in Hres.
Qed.

End RoutingMore.

Section DispatchMore.
Context `{Collaborators}.


(** What [handle_request] does outside the domain errors.  A request bound
    to another API raises [AssertionError].  Otherwise a response from the
    [try] block is returned as it is, and an exception that is not a domain
    error leaves [handle_request] unchanged, in debug mode or not. *)
Theorem handle_request_outside_policy (self : API) (request : Request) :
  (∀ other, api request = Some other → other ≠ api_id self →
     handle_request self request = Raise AssertionError)
  ∧ (api request = None ∨ api request = Some (api_id self) →
     (∀ resp,
        handle_request_try self (set_api request (api_id self)) = Return resp →
        handle_request self request = Return resp)
     ∧ (∀ e,
          handle_request_try self (set_api request (api_id self)) = Raise e →
          (∀ err, e ≠ DomainError err) →
          handle_request self request = Raise e)).
Proof.
  unfold handle_request. split.
  - intros other Hbound Hother. rewrite bool_decide_eq_false_2; [done|].
    rewrite Hbound. intros [?|[= ?]]; done.
  - intros Hbound. rewrite bool_decide_eq_true_2 by done. split.
    + by intros resp ->.
    + intros e -> Hdomain. destruct e; try done. by destruct (Hdomain err).
Qed.

(** From registration to dispatch.  On an API without custom routes whose
    [prepare_request] returns the request as it is, after
    [add_handler(handler, ty, "collection")] a request for [B/ty] (or
    [B/ty/]) is handed to that handler, bound to the API and with [{type: ty}]
    merged into its path parameters; the response the handler returns is
    what [handle_request] returns. *)
Theorem dispatch_to_collection_handler (self self' : API) (handler : Handler)
    (ty trail : string) (request : Request) (resp : Response) :
  _routes self = [] →
  (∀ r, prepare_request self r = Return r) →
  is_segment ty = true → trail = "" ∨ trail = "/" →
  api request = None ∨ api request = Some (api_id self) →
  add_handler self handler ty "collection" None = Return self' →
  handle handler
    (update_uri_arguments
       (set_api (set_path request (_uri self +:+ "/" +:+ ty +:+ trail))
          (api_id self))
       {[ "type" := SStr ty ]})
  = Return (Finished resp) →
  handle_request self' (set_path request (_uri self +:+ "/" +:+ ty +:+ trail))
  = Return resp.
Proof.
  intros Hroutes Hprepare Hty Htrail Hbound Hadd Hhandle.
  unfold add_handler in Hadd. rewrite bool_decide_eq_true_2 in Hadd by (by left).
  injection Hadd as <-.
  unfold handle_request.
  rewrite bool_decide_eq_true_2 by done.
  unfold handle_request_try. cbn [prepare_request set_handler api_id].
  rewrite Hprepare. cbn [mbind result_bind bind].
  pose proof (resolve_collection
    (set_handler self (<[[SStr ty; SStr "collection"]:=handler]> (_handler self)))
    (set_api request (api_id self)) Hroutes ty trail Hty Htrail) as Hres.
  unfold resolves_to in Hres. cbn [_uri set_handler _handler] in Hres.
  change (set_path (set_api request (api_id self))
            (_uri self +:+ "/" +:+ ty +:+ trail))
    with (set_api (set_path request (_uri self +:+ "/" +:+ ty +:+ trail))
            (api_id self)) in Hres.
  rewrite Hres, lookup_insert_eq, Hhandle. done.
Qed.

Lemma rstrip_slash_snoc (s : string) : rstrip_slash (s +:+ "/") = rstrip_slash s.
Proof.
  induction s as [|c s IH]; [done|]. rewrite cons_append. simpl. by rewrite IH.
Qed.

Lemma append_slash_not_empty (t : string) : t +:+ "/" ≠ "".
Proof. by destruct t. Qed.

Lemma rstrip_slash_no_trailing (s t : string) : rstrip_slash s ≠ t +:+ "/".
Proof.
  revert t. induction s as [|c s IH]; intros t; simpl.
  { intros Heq. by apply (append_slash_not_empty t). }
  destruct (rstrip_slash s) as [|d u] eqn:Hs.
  - destruct (Ascii.eqb_spec c "/") as [->|Hc].
    + intros Heq. by apply (append_slash_not_empty t).
    + destruct t as [|c' t]; [by intros [= ->]|].
      rewrite cons_append. intros [= _ Heq]. by apply (append_slash_not_empty t).
  - destruct t as [|c' t]; [done|].
    rewrite cons_append. intros [= _ Heq]. by apply (IH t).
Qed.

Lemma rstrip_slash_fixed (s : string) :
  (∀ t, s ≠ t +:+ "/") → rstrip_slash s = s.
Proof.
  induction s as [|c s IH]; intros Hs; [done|]. simpl.
  rewrite IH.
  - destruct s; [|done].
    destruct (Ascii.eqb_spec c "/") as [->|_]; [|done]. by destruct (Hs "").
  - intros t ->. by apply (Hs (String c t)).
Qed.

(** The stored base uri.  A trailing slash on the uri given to the
    constructor makes no difference, the stored uri never ends with a slash,
    and a uri without a trailing slash is stored as it is. *)
Theorem API_init_base_uri (addr : nat) (base : string) (dbg : bool) :
  _uri (API_init addr (base +:+ "/") dbg) = _uri (API_init addr base dbg)
  ∧ (∀ s, _uri (API_init addr base dbg) ≠ s +:+ "/")
  ∧ ((∀ s, base ≠ s +:+ "/") → _uri (API_init addr base dbg) = base).
Proof.
  simpl. split; [apply rstrip_slash_snoc|].
  split; [apply rstrip_slash_no_trailing|apply rstrip_slash_fixed].
Qed.

End DispatchMore.

(** ** The further properties on the application *)

Section OnTheApplication.
Import Demo.
#[local] Existing Instance collaborators.

(** The registry of the blog API is well keyed. *)
Lemma registry_keys_invariant_witness : registry_wf blog_api.
Proof.
  destruct registry_keys_invariant as [Hinit Hadd].
  unfold blog_api. cbn [foldl register].
  do 4 apply Hadd. apply Hinit.
Defined.

Lemma add_type_then_get_encoder_witness :
  (add_type plain_api people_encoder None).2 = (Return (), [])
  ∧ get_encoder (add_type plain_api people_encoder None).1 (PyStr "people")
      (Some 0%nat) = Return (inl people_encoder)
  ∧ get_encoder (add_type plain_api people_encoder None).1 (Class Person)
      (Some 0%nat) = Return (inl people_encoder)
  ∧ ∀ oid, get_encoder (add_type plain_api people_encoder None).1
             (Instance 1 oid) (Some 0%nat) = Return (inl people_encoder).
Proof.
  apply (add_type_then_get_encoder plain_api people_encoder "people" 1
           (Some 0%nat)); [apply API_init_wf|reflexivity..].
Defined.

Lemma add_type_keeps_other_lookups_witness :
  get_encoder (add_type blog_api robots_encoder None).1 (Instance 1 5)
    (@None Empty_set)
  = get_encoder blog_api (Instance 1 5) (@None Empty_set)
  ∧ get_includer (add_type blog_api robots_encoder None).1 (Instance 1 5)
      (@None Empty_set)
    = get_includer blog_api (Instance 1 5) (@None Empty_set).
Proof.
  apply (add_type_keeps_other_lookups blog_api robots_encoder None
           (Instance 1 5) None); [done|].
  intros c [= <-]. done.
Defined.

Lemma add_type_again_overwrites_typename_only_witness :
  let twice :=
    (add_type (add_type plain_api people_encoder None).1
       robot_people_encoder None).1 in
  get_encoder twice (PyStr "people") (@None Empty_set)
  = Return (inl robot_people_encoder)
  ∧ get_encoder twice (Class Robot) (@None Empty_set)
    = Return (inl robot_people_encoder)
  ∧ get_encoder twice (Class Person) (@None Empty_set)
    = Return (inl people_encoder).
Proof.
  apply (add_type_again_overwrites_typename_only plain_api people_encoder
           robot_people_encoder "people" Person Robot);
    [apply API_init_wf|reflexivity..|done|reflexivity|reflexivity].
Defined.

Lemma add_type_foreign_includer_witness :
  (add_type plain_api people_encoder (Some foreign_includer)).2
  = (Raise AssertionError, [])
  ∧ get_encoder (add_type plain_api people_encoder (Some foreign_includer)).1
      (PyStr "people") (@None Empty_set) = Return (inl people_encoder)
  ∧ _includer (add_type plain_api people_encoder (Some foreign_includer)).1
    = _includer plain_api
  ∧ _resource_class_to_includer
      (add_type plain_api people_encoder (Some foreign_includer)).1
    = _resource_class_to_includer plain_api.
Proof.
  apply (add_type_foreign_includer plain_api people_encoder foreign_includer
           "people" Person 9%nat); [reflexivity..|done].
Defined.

Lemma add_type_then_get_includer_witness :
  (add_type plain_api people_encoder (Some unbound_includer)).2
  = (Return (), [])
  ∧ get_includer (add_type plain_api people_encoder (Some unbound_includer)).1
      (PyStr "people") (@None Empty_set) = Return (inl article_includer)
  ∧ get_includer (add_type plain_api people_encoder (Some unbound_includer)).1
      (Class Person) (@None Empty_set) = Return (inl article_includer)
  ∧ ∀ oid,
      get_includer (add_type plain_api people_encoder (Some unbound_includer)).1
        (Instance 1 oid) (@None Empty_set) = Return (inl article_includer).
Proof.
  apply (add_type_then_get_includer plain_api people_encoder unbound_includer
           "people" 1 None); [apply API_init_wf|reflexivity..|by left].
Defined.

Lemma identifier_of_pair_and_document_witness :
  ensure_identifier plain_api (RefTuple [SStr "people"; SInt 7])
  = Return {| tuple_type := SStr "people"; tuple_id := SStr "7" |}
  ∧ ensure_identifier plain_api (RefDict people_document)
    = Return {| tuple_type := SStr "people"; tuple_id := SStr "7" |}
  ∧ ensure_identifier_object plain_api (RefTuple [SStr "people"; SInt 7])
    = Return (Some {[ "type" := SStr "people"; "id" := SStr "7" ]})
  ∧ ensure_identifier_object plain_api (RefDict people_document)
    = Return (Some {[ "type" := SStr "people"; "id" := SStr "7" ]}).
Proof.
  apply (identifier_of_pair_and_document plain_api (SStr "people") (SInt 7)
           people_document); vm_compute; reflexivity.
Defined.

Lemma ensure_identifier_object_agrees_witness :
  ensure_identifier_object blog_api (RefObject (Instance 1 5))
  = Return (Some {[ "type" := SStr "people"; "id" := SStr "5" ]}).
Proof.
  apply (ensure_identifier_object_agrees blog_api (RefObject (Instance 1 5))
           {| tuple_type := SStr "people"; tuple_id := SStr "5" |});
    [done|vm_compute; reflexivity].
Defined.

Lemma identifier_of_odd_tuple_witness :
  ensure_identifier plain_api (RefTuple [SStr "people"; SInt 7; SStr "x"])
  = Raise AssertionError
  ∧ ensure_identifier_object plain_api
      (RefTuple [SStr "people"; SInt 7; SStr "x"])
    = Return (Some {[ "type" := SStr "people"; "id" := SStr "7" ]})
  ∧ ensure_identifier_object plain_api (RefTuple [SStr "people"])
    = Raise IndexError.
Proof.
  destruct (identifier_of_odd_tuple plain_api
              [SStr "people"; SInt 7; SStr "x"]) as (Hassert & _ & Hlong).
  destruct (identifier_of_odd_tuple plain_api [SStr "people"])
    as (_ & Hshort & _).
  split; [apply Hassert; simpl; lia|].
  split; [exact (Hlong _ _ _ eq_refl)|apply Hshort; simpl; lia].
Defined.

Lemma uris_nest_witness :
  ∃ c i, collection_uri blog_api (Instance 1 5) = Return c
         ∧ "/api/people/5" = c +:+ "/" +:+ i
         ∧ ∀ relname,
             relationship_uri blog_api (Instance 1 5) (SStr relname)
             = Return ("/api/people/5" +:+ "/relationships/" +:+ relname)
             ∧ related_uri blog_api (Instance 1 5) (SStr relname)
               = Return ("/api/people/5" +:+ "/" +:+ relname).
Proof.
  apply (uris_nest blog_api (Instance 1 5) "/api/people/5").
  vm_compute; reflexivity.
Defined.

Lemma paths_exist_all_witness :
  outcome (paths_exist blog_heap feed_includer [["items"]; ["items"; "author"]])
  = Return true
  ∧ outcome (paths_exist blog_heap feed_includer
               [["items"]; ["items"; "comments"]; ["maker"]])
    = Return false.
Proof.
  split.
  - apply (paths_exist_all blog_heap feed_includer
             [["items"]; ["items"; "author"]]).
    repeat apply Forall_cons_2; try apply Forall_nil_2; vm_compute; reflexivity.
  - apply (proj2 (paths_exist_all blog_heap feed_includer
                    [["items"]; ["items"; "comments"]; ["maker"]])
             [["items"]] ["items"; "comments"] [["maker"]] eq_refl).
    + apply Forall_cons_2; [vm_compute; reflexivity|apply Forall_nil_2].
    + vm_compute; reflexivity.
Defined.

Lemma path_exists_prefix_witness :
  outcome (path_exists blog_heap feed_includer ["items"]) = Return true.
Proof.
  apply (path_exists_prefix blog_heap feed_includer ["items"] ["author"]).
  vm_compute; reflexivity.
Defined.

Lemma init_api_binds_once_witness :
  includer_api article_includer = Some 0%nat
  ∧ _relationships article_includer = _relationships unbound_includer
  ∧ Includer_init_api article_includer 0 = Return article_includer
  ∧ ∀ b, b ≠ 0%nat → Includer_init_api article_includer b = Raise AssertionError.
Proof.
  apply (init_api_binds_once unbound_includer 0 article_includer).
  reflexivity.
Defined.

Lemma fetch_path_to_many_union_witness :
  ∃ related,
    fetch_path article_includer [Instance 2 1; Instance 2 2] ["comments"]
      (request_for "/api/articles") = Return related
    ∧ ∀ x, x ∈ related
           ↔ ∃ r, r ∈ [Instance 2 1; Instance 2 2]
                  ∧ x ∈ [Instance 3 31; Instance 3 32].
Proof.
  apply (fetch_path_to_many_union article_includer
           [Instance 2 1; Instance 2 2] "comments" []
           (request_for "/api/articles") comments
           (λ _, [Instance 3 31; Instance 3 32]));
    [vm_compute; reflexivity|reflexivity|].
  repeat apply Forall_cons_2; try apply Forall_nil_2; reflexivity.
Defined.

Lemma fetch_paths_union_witness :
  (∃ related,
     fetch_paths article_includer [Instance 2 1] [["author"]; ["comments"]]
       (request_for "/api/articles") = Return related
     ∧ ∀ x, x ∈ related
            ↔ ∃ p, p ∈ [["author"]; ["comments"]]
                   ∧ x ∈ (if decide (p = ["author"]) then ∅
                          else {[Instance 3 31; Instance 3 32]} : gset pyobj))
  ∧ fetch_paths article_includer [Instance 2 1] [["author"]; ["nowhere"]]
      (request_for "/api/articles") = Raise KeyError.
Proof.
  destruct (fetch_paths_union article_includer [Instance 2 1]
              [["author"]; ["comments"]] (request_for "/api/articles"))
    as [Hunion _].
  destruct (fetch_paths_union article_includer [Instance 2 1]
              [["author"]; ["nowhere"]] (request_for "/api/articles"))
    as [_ Hraise].
  split.
  - apply Hunion.
    repeat apply Forall_cons_2; try apply Forall_nil_2; vm_compute; reflexivity.
  - apply (Hraise [["author"]] ["nowhere"] [] KeyError eq_refl).
    + apply Forall_cons_2; [vm_compute; reflexivity|apply Forall_nil_2].
    + vm_compute; reflexivity.
Defined.

Lemma builtin_routes_for_segments_witness :
  resolves_to relative_api (request_for "/api/articles/")
    [SStr "articles"; SStr "collection"] {[ "type" := SStr "articles" ]}
  ∧ resolves_to relative_api (request_for "/api/articles/7/")
      [SStr "articles"; SStr "resource"]
      {[ "type" := SStr "articles"; "id" := SStr "7" ]}
  ∧ resolves_to relative_api
      (request_for "/api/articles/7/relationships/comments/")
      [SStr "articles"; SStr "relationship"; SStr "comments"]
      {[ "type" := SStr "articles"; "id" := SStr "7";
         "relname" := SStr "comments" ]}
  ∧ resolves_to relative_api (request_for "/api/articles/7/comments/")
      [SStr "articles"; SStr "related"; SStr "comments"]
      {[ "type" := SStr "articles"; "id" := SStr "7";
         "relname" := SStr "comments" ]}.
Proof.
  exact (builtin_routes_for_segments relative_api (request_for "")
           "articles" "7" "comments" "/" eq_refl eq_refl eq_refl eq_refl
           (or_intror eq_refl)).
Defined.

Lemma no_base_uri_no_builtin_route_witness :
  _get_handler absolute_api (request_for "/widgets")
  = (None, request_for "/widgets").
Proof.
  apply (no_base_uri_no_builtin_route absolute_api (request_for "/widgets"));
    [reflexivity|].
  intros s Heq. discriminate Heq.
Defined.

Lemma custom_route_first_match_wins_witness :
  _get_handler custom_api (request_for "/api/widgets")
  = (Some crashing_handler,
     update_uri_arguments (request_for "/api/widgets")
       {[ "what" := SStr "widgets" ]}).
Proof.
  apply (custom_route_first_match_wins custom_api (request_for "/api/widgets")
           [(status_rule, failing_handler ErrForbidden)] []
           catch_all_rule crashing_handler {[ "what" := SStr "widgets" ]});
    [reflexivity| |vm_compute; reflexivity].
  apply Forall_cons_2; [vm_compute; reflexivity|apply Forall_nil_2].
Defined.

Lemma uris_route_back_witness :
  ∃ c r rs rd,
    collection_uri blog_api (Instance 1 5) = Return c
    ∧ resource_uri blog_api (Instance 1 5) = Return r
    ∧ relationship_uri blog_api (Instance 1 5) (SStr "friends") = Return rs
    ∧ related_uri blog_api (Instance 1 5) (SStr "friends") = Return rd
    ∧ resolves_to blog_api (set_path (request_for "") c)
        [SStr "people"; SStr "collection"] {[ "type" := SStr "people" ]}
    ∧ resolves_to blog_api (set_path (request_for "") r)
        [SStr "people"; SStr "resource"]
        {[ "type" := SStr "people"; "id" := SStr "5" ]}
    ∧ resolves_to blog_api (set_path (request_for "") rs)
        [SStr "people"; SStr "relationship"; SStr "friends"]
        {[ "type" := SStr "people"; "id" := SStr "5";
           "relname" := SStr "friends" ]}
    ∧ resolves_to blog_api (set_path (request_for "") rd)
        [SStr "people"; SStr "related"; SStr "friends"]
        {[ "type" := SStr "people"; "id" := SStr "5";
           "relname" := SStr "friends" ]}.
Proof.
  apply (uris_route_back blog_api (request_for "") (Instance 1 5)
           people_encoder "people" "5" "friends");
    vm_compute; reflexivity.
Defined.


Lemma handle_request_outside_policy_witness :
  handle_request crashing_api
    {| api := Some 9%nat; path := "/api/widgets"; japi_uri_arguments := ∅ |}
  = Raise AssertionError
  ∧ handle_request crashing_api (request_for "/api/widgets")
    = Raise (OtherException 1)
  ∧ handle_request relative_api (request_for "/api/widgets")
    = Return (Response_init None None None).
Proof.
  split; [|split].
  - apply (proj1 (handle_request_outside_policy crashing_api
                    {| api := Some 9%nat; path := "/api/widgets";
                       japi_uri_arguments := ∅ |}) 9%nat); done.
  - apply (proj2 (handle_request_outside_policy crashing_api
                    (request_for "/api/widgets")) (or_introl eq_refl));
      [vm_compute; reflexivity|done].
  - apply (proj2 (handle_request_outside_policy relative_api
                    (request_for "/api/widgets")) (or_introl eq_refl)).
    vm_compute; reflexivity.
Defined.

Lemma dispatch_to_collection_handler_witness :
  handle_request
    (set_handler plain_api
       (<[ [SStr "widgets"; SStr "collection"] := ok_handler ]> ∅))
    (request_for "/api/widgets/")
  = Return (Response_init None None None).
Proof.
  apply (dispatch_to_collection_handler plain_api _ ok_handler "widgets" "/"
           (request_for "") (Response_init None None None));
    try reflexivity; try done; [by right|by left].
Defined.

Lemma API_init_base_uri_witness :
  _uri (API_init 0 "/api/" false) = _uri (API_init 0 "/api" false)
  ∧ _uri (API_init 0 "/api" false) = "/api".
Proof.
  destruct (API_init_base_uri 0 "/api" false) as (Hslash & _ & Hkeep).
  split; [exact Hslash|]. apply Hkeep.
  intros [|c0 [|c1 [|c2 [|c3 [|c4 s]]]]]; discriminate.
Defined.

End OnTheApplication.

(** ** The built-in patterns exclude one another *)

Lemma segment_loop_inv (k : string → Re.captures → option Re.captures)
    (m : Re.captures) (fuel : nat) :
  ∀ (s : string) (caps : Re.captures),
  (fix iter (fuel : nat) (s : string) (caps : Re.captures) : option Re.captures :=
     match fuel with
     | O => None
     | S fuel' =>
         Re.run (Re.NotChar "/") s caps (λ s' caps',
           match k s' caps' with
           | Some m => Some m
           | None => iter fuel' s' caps'
           end)
     end) fuel s caps = Some m →
  ∃ seg rest, s = seg +:+ rest ∧ is_segment seg = true ∧ k rest caps = Some m.
Proof.
  induction fuel as [|fuel IH]; intros s caps; [done|].
  cbn [Re.run]. destruct s as [|c s]; [done|].
  destruct (Ascii.eqb_spec "/" c) as [<-|Hc]; [done|].
  assert (Hc' : negb (Ascii.eqb c "/") = true).
  { apply negb_true_iff, Ascii.eqb_neq. congruence. }
  destruct (k s caps) as [m'|] eqn:Hk.
  - intros [= <-]. exists (String c ""), s. repeat split; [|done].
    simpl. by rewrite Hc'.
  - intros Hiter. destruct (IH s caps Hiter) as (seg & rest & -> & Hseg & Hrest).
    exists (String c seg), rest. repeat split; [|done].
    simpl. rewrite Hc'. simpl. by destruct seg.
Qed.

Lemma run_segment_inv (name : string) (s : string) (caps m : Re.captures)
    (k : string → Re.captures → option Re.captures) :
  Re.run (segment name) s caps k = Some m →
  ∃ seg rest, s = seg +:+ rest ∧ is_segment seg = true
              ∧ k rest (<[name := seg]> caps) = Some m.
Proof.
  intros Hrun.
  pose (k' := λ (s' : string) (caps' : Re.captures),
          k s' (<[name := Re.consumed s s']> caps')).
  destruct (segment_loop_inv k' m (S (String.length s)) s caps Hrun)
    as (seg & rest & -> & Hseg & Hk).
  exists seg, rest. repeat split; [done|].
  subst k'. cbv beta in Hk. by rewrite consumed_append in Hk.
Qed.

Lemma append_cancel (b x y : string) : b +:+ x = b +:+ y → x = y.
Proof.
  induction b as [|c b IH]; [done|]. rewrite !cons_append. intros [= Heq]. auto.
Qed.

Lemma is_segment_no_slash (s : string) : is_segment s = true → no_slash s = true.
Proof. by destruct s. Qed.

Lemma segment_not_empty (seg x : string) : is_segment seg = true → seg +:+ x ≠ "".
Proof. by destruct seg. Qed.

(** A segment and its trail against a segment followed by a slash. *)
Lemma segment_trail_split (t tr t' x : string) :
  is_segment t = true → is_segment t' = true → tr = "" ∨ tr = "/" →
  t +:+ tr = t' +:+ String "/" x → t = t' ∧ x = "".
Proof.
  intros Ht Ht' [-> | ->] Heq.
  - rewrite append_empty in Heq. apply is_segment_no_slash in Ht.
    by rewrite Heq, no_slash_before_slash in Ht.
  - apply first_slash in Heq as [-> <-]; auto using is_segment_no_slash.
Qed.

Lemma run_seq_literal_inv (b : string) (rs : list Re.regex) (s : string)
    (caps m : Re.captures) (k : string → Re.captures → option Re.captures) :
  Re.run (Re.seq (literal b :: rs)) s caps k = Some m →
  ∃ s', s = b +:+ s' ∧ Re.run (Re.seq rs) s' caps k = Some m.
Proof.
  cbn [Re.seq foldr Re.run]. unfold literal. intros Hrun.
  apply run_escape_inv in Hrun as (s' & -> & Hrun). by exists s'.
Qed.

Lemma run_seq_segment_inv (name : string) (rs : list Re.regex) (s : string)
    (caps m : Re.captures) (k : string → Re.captures → option Re.captures) :
  Re.run (Re.seq (segment name :: rs)) s caps k = Some m →
  ∃ seg rest, s = seg +:+ rest ∧ is_segment seg = true
              ∧ Re.run (Re.seq rs) rest (<[name := seg]> caps) k = Some m.
Proof.
  change (Re.run (Re.seq (segment name :: rs)) s caps k)
    with (Re.run (segment name) s caps (λ s' c, Re.run (Re.seq rs) s' c k)).
  apply run_segment_inv.
Qed.

Lemma run_slash_end_inv (s : string) (caps m : Re.captures) :
  Re.run (Re.seq [slash_end]) s caps at_end = Some m → s = "" ∨ s = "/".
Proof.
  rewrite run_slash_end. destruct s as [|c [|c' s]]; [by left| |].
  - destruct (Ascii.eqb_spec c "/") as [->|Hc]; [by right|].
    by destruct c as [[] [] [] [] [] [] [] []].
  - by destruct c as [[] [] [] [] [] [] [] []].
Qed.

Ltac invert_run H :=
  repeat first
    [ apply run_seq_literal_inv in H as (? & -> & H)
    | apply run_seq_segment_inv in H as (? & ? & -> & ? & H) ];
  apply run_slash_end_inv in H.

Lemma fullmatch_some (r : Re.regex) (s : string) (m : Re.match_object) :
  Re.fullmatch r s = Some m → ∃ caps, Re.run r s ∅ at_end = Some caps.
Proof.
  rewrite fullmatch_run. destruct (Re.run r s ∅ at_end) as [caps|]; [|done].
  by exists caps.
Qed.

Lemma collection_shape (s : string) (m : Re.match_object) :
  Re.fullmatch (Re.seq [literal "/"; segment "type"; slash_end]) s = Some m →
  ∃ ty trail, s = "/" +:+ ty +:+ trail ∧ is_segment ty = true
              ∧ (trail = "" ∨ trail = "/").
Proof.
  intros Hm. apply fullmatch_some in Hm as [caps Hrun]. invert_run Hrun. eauto.
Qed.

Lemma resource_shape (s : string) (m : Re.match_object) :
  Re.fullmatch
    (Re.seq [literal "/"; segment "type"; literal "/"; segment "id"; slash_end])
    s = Some m →
  ∃ ty id trail, s = "/" +:+ ty +:+ "/" +:+ id +:+ trail
                 ∧ is_segment ty = true ∧ is_segment id = true
                 ∧ (trail = "" ∨ trail = "/").
Proof.
  intros Hm. apply fullmatch_some in Hm as [caps Hrun]. invert_run Hrun.
  eauto 10.
Qed.

Lemma relationship_shape (s : string) (m : Re.match_object) :
  Re.fullmatch
    (Re.seq [literal "/"; segment "type"; literal "/"; segment "id";
             literal "/relationships/"; segment "relname"; slash_end])
    s = Some m →
  ∃ ty id rel trail,
    s = "/" +:+ ty +:+ "/" +:+ id +:+ "/relationships/" +:+ rel +:+ trail
    ∧ is_segment ty = true ∧ is_segment id = true ∧ is_segment rel = true
    ∧ (trail = "" ∨ trail = "/").
Proof.
  intros Hm. apply fullmatch_some in Hm as [caps Hrun]. invert_run Hrun.
  eauto 12.
Qed.

Lemma related_shape (s : string) (m : Re.match_object) :
  Re.fullmatch
    (Re.seq [literal "/"; segment "type"; literal "/"; segment "id";
             literal "/"; segment "relname"; slash_end])
    s = Some m →
  ∃ ty id rel trail,
    s = "/" +:+ ty +:+ "/" +:+ id +:+ "/" +:+ rel +:+ trail
    ∧ is_segment ty = true ∧ is_segment id = true ∧ is_segment rel = true
    ∧ (trail = "" ∨ trail = "/").
Proof.
  intros Hm. apply fullmatch_some in Hm as [caps Hrun]. invert_run Hrun.
  eauto 12.
Qed.

Section Exclusive.
Context (t i r tr t' i' r' tr' : string).
Context (Ht : is_segment t = true) (Hi : is_segment i = true)
  (Hr : is_segment r = true) (Htr : tr = "" ∨ tr = "/").
Context (Ht' : is_segment t' = true) (Hi' : is_segment i' = true)
  (Hr' : is_segment r' = true) (Htr' : tr' = "" ∨ tr' = "/").

Lemma one_segment_not_more (x : string) :
  "/" +:+ t +:+ tr ≠ "/" +:+ t' +:+ "/" +:+ i' +:+ x.
Proof.
  intros Heq. apply (append_cancel "/") in Heq.
  apply segment_trail_split in Heq as [_ Heq]; [|done..].
  by apply segment_not_empty in Heq.
Qed.

Lemma two_segments_not_more (x : string) :
  is_segment r' = true →
  "/" +:+ t +:+ "/" +:+ i +:+ tr ≠ "/" +:+ t' +:+ "/" +:+ i' +:+ "/" +:+ r' +:+ x.
Proof.
  intros _ Heq. apply (append_cancel "/") in Heq.
  apply first_slash in Heq as [_ Heq]; [|by apply is_segment_no_slash..].
  apply segment_trail_split in Heq as [_ Heq]; [|done..].
  by apply segment_not_empty in Heq.
Qed.

Lemma relationship_not_related :
  "/" +:+ t +:+ "/" +:+ i +:+ "/relationships/" +:+ r +:+ tr
  ≠ "/" +:+ t' +:+ "/" +:+ i' +:+ "/" +:+ r' +:+ tr'.
Proof.
  intros Heq. apply (append_cancel "/") in Heq.
  apply first_slash in Heq as [_ Heq]; [|by apply is_segment_no_slash..].
  change ("/relationships/" +:+ r +:+ tr)
    with ("/" +:+ "relationships" +:+ "/" +:+ r +:+ tr) in Heq.
  change (i +:+ String "/" ("relationships" +:+ "/" +:+ r +:+ tr)
          = i' +:+ String "/" (r' +:+ tr')) in Heq.
  apply first_slash in Heq as [_ Heq]; [|by apply is_segment_no_slash..].
  symmetry in Heq.
  apply segment_trail_split in Heq as [_ Heq]; [|done..].
  by apply segment_not_empty in Heq.
Qed.

End Exclusive.

Lemma tails_exclusive (s : string) :
  let c := Re.fullmatch (Re.seq [literal "/"; segment "type"; slash_end]) s in
  let r := Re.fullmatch
    (Re.seq [literal "/"; segment "type"; literal "/"; segment "id"; slash_end])
    s in
  let rs := Re.fullmatch
    (Re.seq [literal "/"; segment "type"; literal "/"; segment "id";
             literal "/relationships/"; segment "relname"; slash_end]) s in
  let rd := Re.fullmatch
    (Re.seq [literal "/"; segment "type"; literal "/"; segment "id";
             literal "/"; segment "relname"; slash_end]) s in
  (is_Some c → r = None ∧ rs = None ∧ rd = None)
  ∧ (is_Some r → rs = None ∧ rd = None)
  ∧ (is_Some rs → rd = None).
Proof.
  intros c r rs rd.
  assert (Hcr : is_Some c → r = None).
  { intros [m Hc]. destruct r as [m'|] eqn:Hr; [exfalso|done].
    apply collection_shape in Hc as (t & tr & -> & ? & ?).
    apply resource_shape in Hr as (t' & i' & tr' & Heq & ? & ? & ?).
    by apply one_segment_not_more in Heq. }
  assert (Hcrs : is_Some c → rs = None).
  { intros [m Hc]. destruct rs as [m'|] eqn:Hr; [exfalso|done].
    apply collection_shape in Hc as (t & tr & -> & ? & ?).
    apply relationship_shape in Hr as (t' & i' & r' & tr' & Heq & ? & ? & ? & ?).
    by apply one_segment_not_more in Heq. }
  assert (Hcrd : is_Some c → rd = None).
  { intros [m Hc]. destruct rd as [m'|] eqn:Hr; [exfalso|done].
    apply collection_shape in Hc as (t & tr & -> & ? & ?).
    apply related_shape in Hr as (t' & i' & r' & tr' & Heq & ? & ? & ? & ?).
    by apply one_segment_not_more in Heq. }
  assert (Hrrs : is_Some r → rs = None).
  { intros [m Hc]. destruct rs as [m'|] eqn:Hr; [exfalso|done].
    apply resource_shape in Hc as (t & i & tr & -> & ? & ? & ?).
    apply relationship_shape in Hr as (t' & i' & r' & tr' & Heq & ? & ? & ? & ?).
    change ("/relationships/" +:+ r' +:+ tr')
      with ("/" +:+ "relationships" +:+ "/" +:+ r' +:+ tr') in Heq.
    by apply two_segments_not_more in Heq. }
  assert (Hrrd : is_Some r → rd = None).
  { intros [m Hc]. destruct rd as [m'|] eqn:Hr; [exfalso|done].
    apply resource_shape in Hc as (t & i & tr & -> & ? & ? & ?).
    apply related_shape in Hr as (t' & i' & r' & tr' & Heq & ? & ? & ? & ?).
    by apply two_segments_not_more in Heq. }
  assert (Hrsrd : is_Some rs → rd = None).
  { intros [m Hc]. destruct rd as [m'|] eqn:Hr; [exfalso|done].
    apply relationship_shape in Hc as (t & i & r0 & tr & -> & ? & ? & ? & ?).
    apply related_shape in Hr as (t' & i' & r' & tr' & Heq & ? & ? & ? & ?).
    by apply relationship_not_related in Heq. }
  auto.
Qed.

(** The four built-in patterns exclude one another: behind whatever base
    uri, a path that one of them matches is matched by none of the other
    three, so the order in which [_get_handler] tries them decides
    nothing. *)
Theorem builtin_patterns_exclusive (b p : string) :
  let e := Re.escape b in
  let c := Re.fullmatch (collection_re e) p in
  let r := Re.fullmatch (resource_re e) p in
  let rs := Re.fullmatch (relationship_re e) p in
  let rd := Re.fullmatch (related_re e) p in
  (is_Some c → r = None ∧ rs = None ∧ rd = None)
  ∧ (is_Some r → rs = None ∧ rd = None)
  ∧ (is_Some rs → rd = None).
Proof.
  intros e c r rs rd. subst e c r rs rd.
  unfold collection_re, resource_re, relationship_re, related_re.
  assert (Hprefix : (∃ s, p = b +:+ s) ∨ ∀ s, p ≠ b +:+ s).
  { clear. revert p. induction b as [|x b IH]; intros p.
    - left. by exists p.
    - destruct p as [|y p]; [by right|].
      destruct (decide (x = y)) as [->|Hne].
      + destruct (IH p) as [[s ->]|Hno]; [left; by exists s|right].
        intros s [= Heq]. by apply (Hno s).
      + right. intros s [= Heq _]. done. }
  destruct Hprefix as [[s ->]|Hno].
  - rewrite !(fullmatch_behind_escape b). apply tails_exclusive.
  - assert (Hnone : ∀ rs', Re.fullmatch (Re.seq (Re.escape b :: rs')) p = None).
    { intros rs'. destruct (Re.fullmatch _ p) as [m|] eqn:Hm; [|done].
      apply fullmatch_needs_prefix in Hm as [s Hs]. by destruct (Hno s). }
    rewrite !Hnone. repeat split; by intros [? ?].
Qed.

(** On the path [/api/widgets/] behind [/api]: the collection pattern
    matches, the other three do not. *)
Lemma builtin_patterns_exclusive_witness :
  is_Some (Re.fullmatch (collection_re (Re.escape "/api")) "/api/widgets/")
  ∧ Re.fullmatch (resource_re (Re.escape "/api")) "/api/widgets/" = None
  ∧ Re.fullmatch (relationship_re (Re.escape "/api")) "/api/widgets/" = None
  ∧ Re.fullmatch (related_re (Re.escape "/api")) "/api/widgets/" = None.
Proof.
  assert (Hc : is_Some (Re.fullmatch (collection_re (Re.escape "/api"))
                          "/api/widgets/"))
    by (vm_compute; eexists; reflexivity).
  split; [exact Hc|].
  exact (proj1 (builtin_patterns_exclusive "/api" "/api/widgets/") Hc).
Defined.
